(** * EaselJS display list: [DisplayObject.js] and [Stage.js]

    A shallow embedding of the two classes, and what is stated of them
    checked against it.

    - JavaScript numbers are IEEE 754 binary64 values: [number] is Rocq's
      primitive [float], so [*], unary [-], [>] and [!=] below are the
      operations the interpreter performs, NaN included.
    - Objects that a method mutates are passed in and returned.  The
      document (canvas elements and their 2D contexts), the UID counter and
      the sequence of calls that leave the two files live in a [World] that
      is threaded through a small state-and-exception monad.
    - [Matrix2D], [Point], [MouseEvent], [UID] and [Container] are classes
      of the library whose files are not part of this development; what is
      used of them is stated where it is introduced. *)

From Stdlib Require Import ZArith List String Floats Bool Lia.
From stdpp Require Import base gmap.
Import ListNotations.

#[local] Set Warnings "-register-all".
#[local] Open Scope Z_scope.

(** ** JavaScript values *)

Definition number := float.

(** The exceptions a call can end in. *)
Inductive Error :=
| TypeError            (* a property read on null *)
| IndexSizeError       (* getImageData on an empty rectangle *)
| InvalidStateError    (* drawImage of an empty canvas *)
| SingularMatrixError  (* Matrix2D.invert, as the specification names it *).

Inductive completion (A : Type) :=
| Normal (a : A)
| Throw (e : Error).
Arguments Normal {A} a.
Arguments Throw {A} e.

(** Strings in a boolean position: the empty string is falsy, and so is an
    absent (undefined) argument. *)
Definition truthy (s : option string) : bool :=
  match s with
  | None => false
  | Some EmptyString => false
  | Some _ => true
  end.

(** The string an argument holds once it has passed a truthiness test. *)
Definition string_value (s : option string) : string :=
  match s with
  | Some v => v
  | None => EmptyString
  end.

(** ** Value classes used by the two files *)

Module Point.
(** Modelled from the spec: "(x, y) pure value", built by
    [new Point(x, y)]. *)
Record t := new { x : number; y : number }.
End Point.

Module Shadow.
(** The properties [applyShadow] reads. *)
Record t := mk { color : string; offsetX : number; offsetY : number; blur : number }.
End Shadow.

Module MouseEvent.
(** Modelled from the spec: the event value [{kind, x, y}] that
    [new MouseEvent(type, mouseX, mouseY)] builds; the coordinates are
    null until the pointer has moved over a bound canvas. *)
Record t := new { kind : string; x : option number; y : option number }.
End MouseEvent.

(** A user function stored in a callback slot, known by its name. *)
Definition Callback := string.

(** ** The document: canvas elements and their 2D contexts *)

Definition handle := positive.

Inductive Pixel := RGBA (r g b a : Z).
Definition transparent : Pixel := RGBA 0 0 0 0.

Module ImageData.
Record t := mk { width : Z; height : Z; data : Z -> Z -> Pixel }.
End ImageData.

Inductive Transform := TranslateBy (tx ty : number).

Module Canvas.
(** A canvas element together with the state of its 2D context.
    [transform] lists the transformations applied since the context was
    last reset. *)
Record t := mk {
  width : Z;
  height : Z;
  pixels : Z -> Z -> Pixel;
  globalCompositeOperation : string;
  fillStyle : string;
  transform : list Transform
}.

(** A bitmap of the given size in the state the platform creates it in. *)
Definition blank (w h : Z) : t :=
  {| width := w; height := h; pixels := fun _ _ => transparent;
     globalCompositeOperation := "source-over"; fillStyle := "#000000";
     transform := [] |}.

Definition in_bounds (c : t) (px py : Z) : bool :=
  (0 <=? px) && (px <? width c) && (0 <=? py) && (py <? height c).

Definition set_pixels (p : Z -> Z -> Pixel) (c : t) : t :=
  {| width := width c; height := height c; pixels := p;
     globalCompositeOperation := globalCompositeOperation c;
     fillStyle := fillStyle c; transform := transform c |}.

Definition set_globalCompositeOperation (v : string) (c : t) : t :=
  {| width := width c; height := height c; pixels := pixels c;
     globalCompositeOperation := v;
     fillStyle := fillStyle c; transform := transform c |}.

Definition set_fillStyle (v : string) (c : t) : t :=
  {| width := width c; height := height c; pixels := pixels c;
     globalCompositeOperation := globalCompositeOperation c;
     fillStyle := v; transform := transform c |}.

Definition set_transform (v : list Transform) (c : t) : t :=
  {| width := width c; height := height c; pixels := pixels c;
     globalCompositeOperation := globalCompositeOperation c;
     fillStyle := fillStyle c; transform := v |}.
End Canvas.

(** What the platform paints is its own business: the rasterizer and the
    image encoder are parameters.  [paint_fillRect], [paint_clearRect] and
    [paint_drawImage] give the bitmap a canvas holds after the call, which
    may depend on every piece of context state.  Canvases are origin-clean:
    the platform withholds no pixel from the page. *)
Class Platform := {
  paint_fillRect : Canvas.t -> Z -> Z -> Z -> Z -> Z -> Z -> Pixel;
  paint_clearRect : Canvas.t -> Z -> Z -> Z -> Z -> Z -> Z -> Pixel;
  paint_drawImage : Canvas.t -> Canvas.t -> number -> number -> Z -> Z -> Pixel;
  encode : Canvas.t -> string -> string
}.

(** Calls on a 2D context. *)
Inductive CtxCall :=
| translate (tx ty : number)
| drawImage (image : handle) (dx dy : number)
| clearRect (rx ry rw rh : Z)
| fillRect (rx ry rw rh : Z)
| getImageData (sx sy sw sh : Z)
| putImageData (d : ImageData.t) (dx dy : Z)
| set_globalCompositeOperation (v : string)
| set_fillStyle (v : string).

(** Calls on methods that the two files do not define (they are inherited
    from [Container] or overridden by a subclass). *)
Inductive Method :=
| m_draw (ctx : handle) (ignoreCache : bool)
| m_updateContext (ctx : handle)
| m_revertContext.

(** The object a user callback is a property of. *)
Inductive Owner :=
| OfStage
| OfActiveMouseEvent.

(** Everything a method does outside its own object, in order. *)
Inductive Event :=
| EvCreateElement (h : handle)
| EvSetWidth (c : handle) (v : Z)
| EvSetHeight (c : handle) (v : Z)
| EvCtx (c : handle) (call : CtxCall)
| EvToDataURL (c : handle) (mimeType : string)
| EvCall (receiver : Z) (m : Method)
| EvCallback (owner : Owner) (f : Callback) (evt : MouseEvent.t).

Record World := mkWorld {
  canvases : gmap handle Canvas.t;
  uid_nextID : Z;
  trace : list Event
}.

Definition set_canvases (m : gmap handle Canvas.t) (w : World) : World :=
  {| canvases := m; uid_nextID := uid_nextID w; trace := trace w |}.
Definition set_uid_nextID (n : Z) (w : World) : World :=
  {| canvases := canvases w; uid_nextID := n; trace := trace w |}.
Definition set_trace (t : list Event) (w : World) : World :=
  {| canvases := canvases w; uid_nextID := uid_nextID w; trace := t |}.

(** ** The monad of method bodies *)

Definition M (A : Type) : Type := World -> completion A * World.

Definition ret {A} (a : A) : M A := fun w => (Normal a, w).

Definition bind {A B} (m : M A) (k : A -> M B) : M B :=
  fun w =>
    match m w with
    | (Normal a, w') => k a w'
    | (Throw e, w') => (Throw e, w')
    end.

Definition throw {A} (e : Error) : M A := fun w => (Throw e, w).

Notation "'let*' x ':=' m 'in' k" := (bind m (fun x => k))
  (at level 10, x name, m at level 100, k at level 200).

Definition log (e : Event) : M unit :=
  fun w => (Normal tt, set_trace (trace w ++ [e]) w).

(** Reading a property of a canvas. *)
Definition read {A} (c : handle) (f : Canvas.t -> A) : M A :=
  fun w =>
    match canvases w !! c with
    | Some cv => (Normal (f cv), w)
    | None => (Throw TypeError, w)
    end.

Definition modify (c : handle) (f : Canvas.t -> Canvas.t) : M unit :=
  fun w => (Normal tt, set_canvases (alter f c (canvases w)) w).

(** ** Platform calls *)

Section Document.
Context {platform : Platform}.

(** [document.createElement("canvas")]: a new element, 300 by 150. *)
Definition createElement_canvas : M handle :=
  fun w =>
    let h := fresh (dom (canvases w)) in
    (Normal h,
     set_trace (trace w ++ [EvCreateElement h])
       (set_canvases (<[h := Canvas.blank 300 150]> (canvases w)) w)).

(** [canvas.getContext("2d")]: a canvas has one 2D context, which is
    addressed by the handle of its canvas. *)
Definition getContext (c : handle) : handle := c.

Definition get_width (c : handle) : M Z := read c Canvas.width.
Definition get_height (c : handle) : M Z := read c Canvas.height.

(** Assigning [width] or [height] clears the bitmap and resets the
    context to its default state.  The two attributes are unsigned longs
    that reflect content attributes: the integer assigned is first taken
    modulo 2^32, and a result above 2147483647 is then replaced by the
    default, 300 for the width and 150 for the height. *)
Definition dimension (default v : Z) : Z :=
  let u := v mod 4294967296 in
  if u <=? 2147483647 then u else default.

Definition set_width (c : handle) (v : Z) : M unit :=
  let* _ := log (EvSetWidth c v) in
  modify c (fun cv => Canvas.blank (dimension 300 v) (Canvas.height cv)).

Definition set_height (c : handle) (v : Z) : M unit :=
  let* _ := log (EvSetHeight c v) in
  modify c (fun cv => Canvas.blank (Canvas.width cv) (dimension 150 v)).

Definition ctx_translate (ctx : handle) (tx ty : number) : M unit :=
  let* _ := log (EvCtx ctx (translate tx ty)) in
  modify ctx (fun cv =>
    Canvas.set_transform (Canvas.transform cv ++ [TranslateBy tx ty]) cv).

(** A canvas without pixels. *)
Definition empty (cv : Canvas.t) : bool :=
  (Canvas.width cv =? 0) || (Canvas.height cv =? 0).

(** [drawImage] of a canvas: an empty one is an [InvalidStateError]. *)
Definition ctx_drawImage (ctx image : handle) (dx dy : number) : M unit :=
  let* _ := log (EvCtx ctx (drawImage image dx dy)) in
  let* source := read image (fun cv => cv) in
  if empty source then throw InvalidStateError
  else
    modify ctx (fun cv =>
      Canvas.set_pixels (paint_drawImage cv source dx dy) cv).

Definition ctx_clearRect (ctx : handle) (rx ry rw rh : Z) : M unit :=
  let* _ := log (EvCtx ctx (clearRect rx ry rw rh)) in
  modify ctx (fun cv => Canvas.set_pixels (paint_clearRect cv rx ry rw rh) cv).

Definition ctx_fillRect (ctx : handle) (rx ry rw rh : Z) : M unit :=
  let* _ := log (EvCtx ctx (fillRect rx ry rw rh)) in
  modify ctx (fun cv => Canvas.set_pixels (paint_fillRect cv rx ry rw rh) cv).

(** [getImageData] copies a rectangle of the bitmap; pixels outside the
    canvas read as transparent black, and an empty rectangle is an
    [IndexSizeError]. *)
Definition copy_rect (cv : Canvas.t) (sx sy sw sh : Z) : ImageData.t :=
  let x0 := Z.min sx (sx + sw) in
  let y0 := Z.min sy (sy + sh) in
  ImageData.mk (Z.abs sw) (Z.abs sh)
    (fun i j =>
       if Canvas.in_bounds cv (x0 + i) (y0 + j)
       then Canvas.pixels cv (x0 + i) (y0 + j)
       else transparent).

Definition ctx_getImageData (ctx : handle) (sx sy sw sh : Z) : M ImageData.t :=
  let* _ := log (EvCtx ctx (getImageData sx sy sw sh)) in
  if (sw =? 0) || (sh =? 0) then throw IndexSizeError
  else read ctx (fun cv => copy_rect cv sx sy sw sh).

(** [putImageData] writes the rectangle back, whatever the transform,
    the compositing mode and the styles are. *)
Definition paste_rect (cv : Canvas.t) (d : ImageData.t) (dx dy : Z)
  : Z -> Z -> Pixel :=
  fun px py =>
    if Canvas.in_bounds cv px py
       && (dx <=? px) && (px <? dx + ImageData.width d)
       && (dy <=? py) && (py <? dy + ImageData.height d)
    then ImageData.data d (px - dx) (py - dy)
    else Canvas.pixels cv px py.

Definition ctx_putImageData (ctx : handle) (d : ImageData.t) (dx dy : Z) : M unit :=
  let* _ := log (EvCtx ctx (putImageData d dx dy)) in
  modify ctx (fun cv => Canvas.set_pixels (paste_rect cv d dx dy) cv).

Definition ctx_get_globalCompositeOperation (ctx : handle) : M string :=
  read ctx Canvas.globalCompositeOperation.

Definition ctx_set_globalCompositeOperation (ctx : handle) (v : string) : M unit :=
  let* _ := log (EvCtx ctx (set_globalCompositeOperation v)) in
  modify ctx (Canvas.set_globalCompositeOperation v).

Definition ctx_set_fillStyle (ctx : handle) (v : string) : M unit :=
  let* _ := log (EvCtx ctx (set_fillStyle v)) in
  modify ctx (Canvas.set_fillStyle v).

Definition toDataURL (c : handle) (mimeType : string) : M string :=
  let* _ := log (EvToDataURL c mimeType) in
  read c (fun cv => encode cv mimeType).
End Document.

(** ** UID *)

Module UID.
(** Modelled from the spec: the process-wide generator of node
    identifiers, "a single atomic-increment accessor" over a counter that
    only grows.  [UID.js] itself is not among the files. *)
Definition get : M Z :=
  fun w => (Normal (uid_nextID w), set_uid_nextID (uid_nextID w + 1) w).
End UID.

(** ** Matrix2D *)

Module Matrix2D.
(** The affine part of [Matrix2D] is used through its interface only:
    the six coefficients and what [prependTransform], [append] and
    [invert] do to them are a parameter.  [invert] answers [None] where
    the specification has it signal [SingularMatrixError]. *)
Class Geometry (G : Type) := {
  g_identity : G;
  g_prependTransform : G -> number -> number -> number -> number ->
                       number -> number -> number -> G;
  g_append : G -> number -> number -> number -> number -> number -> number -> G;
  g_invert : G -> option G;
  g_tx : G -> number;
  g_ty : G -> number
}.

Section Matrix.
Context {G : Type} {geometry : Geometry G}.

(** Modelled from the spec: the coefficients "plus two accumulators
    carried alongside": a multiplicative [alpha] and a [shadow] slot. *)
Record t := mk { geom : G; alpha : number; shadow : option Shadow.t }.

(** Modelled from the spec: [new Matrix2D()]; a walk starts "from
    identity", with the accumulators cleared. *)
Definition new : t :=
  {| geom := g_identity; alpha := 1%float; shadow := None |}.

(** Modelled from the spec: [identity()], which "resets to the identity
    transform and clears accumulators (alpha=1, shadow=null)". *)
Definition identity (m : t) : t :=
  {| geom := g_identity; alpha := 1%float; shadow := None |}.

(** Modelled from the spec: [prependTransform] composes the given local
    transform before the matrix's current one.  It acts on the
    coefficients; the accumulators ride along. *)
Definition prependTransform (m : t) (x y scaleX scaleY rotation regX regY : number) : t :=
  {| geom := g_prependTransform (geom m) x y scaleX scaleY rotation regX regY;
     alpha := alpha m; shadow := shadow m |}.

(** Modelled from the spec: [append] "composes a transform after the
    current one". *)
Definition append (m : t) (a b c d tx ty : number) : t :=
  {| geom := g_append (geom m) a b c d tx ty;
     alpha := alpha m; shadow := shadow m |}.

(** Modelled from the spec: [invert] computes the affine inverse in
    place and "fails (signals SingularMatrixError) when the determinant is
    zero". *)
Definition invert (m : t) : completion t :=
  match g_invert (geom m) with
  | Some g => Normal {| geom := g; alpha := alpha m; shadow := shadow m |}
  | None => Throw SingularMatrixError
  end.

(** The translation coefficients, read as [mtx.tx] and [mtx.ty]. *)
Definition tx (m : t) : number := g_tx (geom m).
Definition ty (m : t) : number := g_ty (geom m).

(** Assignments to [mtx.alpha] and [mtx.shadow]. *)
Definition set_alpha (v : number) (m : t) : t :=
  {| geom := geom m; alpha := v; shadow := shadow m |}.
Definition set_shadow (v : option Shadow.t) (m : t) : t :=
  {| geom := geom m; alpha := alpha m; shadow := v |}.
End Matrix.
Arguments t G : clear implicits.
End Matrix2D.

(** ** DisplayObject.js *)

Module DisplayObject.
(** The constructor an object was made by, which is what
    [o instanceof Stage] asks for.  [Stage] has no subclass. *)
Inductive Class :=
| DisplayObjectClass
| ContainerClass
| StageClass
| OtherClass (constructor_name : string).

(** The public properties, the two private cache offsets, and the two
    properties [uncache] creates.  The remaining private properties
    ([_cacheDraw], [_activeContext], [_restoreContext], [_revertShadow],
    [_revertX], [_revertY], [_revertAlpha]) are touched by no method of
    the two files.  [parent] holds the parent itself: a chain of parents
    is finite, as the loops that climb it need it to be. *)
Inductive t := mk {
  cls : Class;
  alpha : number;
  cacheCanvas : option handle;
  id : Z;
  mouseEnabled : bool;
  name : option string;
  parent : option t;
  regX : number;
  regY : number;
  rotation : number;
  scaleX : number;
  scaleY : number;
  shadow : option Shadow.t;
  visible : bool;
  x : number;
  y : number;
  _cacheOffsetX : number;
  _cacheOffsetY : number;
  cacheOffsetX : option number;
  cacheOffsetY : option number;
  children : option (list t)
}.

Definition set_alpha (v : number) (o : t) : t :=
  {| cls := cls o; alpha := v; cacheCanvas := cacheCanvas o; id := id o;
     mouseEnabled := mouseEnabled o; name := name o; parent := parent o;
     regX := regX o; regY := regY o; rotation := rotation o;
     scaleX := scaleX o; scaleY := scaleY o; shadow := shadow o;
     visible := visible o; x := x o; y := y o;
     _cacheOffsetX := _cacheOffsetX o; _cacheOffsetY := _cacheOffsetY o;
     cacheOffsetX := cacheOffsetX o; cacheOffsetY := cacheOffsetY o;
     children := children o |}.

Definition set_cacheCanvas (v : option handle) (o : t) : t :=
  {| cls := cls o; alpha := alpha o; cacheCanvas := v; id := id o;
     mouseEnabled := mouseEnabled o; name := name o; parent := parent o;
     regX := regX o; regY := regY o; rotation := rotation o;
     scaleX := scaleX o; scaleY := scaleY o; shadow := shadow o;
     visible := visible o; x := x o; y := y o;
     _cacheOffsetX := _cacheOffsetX o; _cacheOffsetY := _cacheOffsetY o;
     cacheOffsetX := cacheOffsetX o; cacheOffsetY := cacheOffsetY o;
     children := children o |}.

Definition set_id (v : Z) (o : t) : t :=
  {| cls := cls o; alpha := alpha o; cacheCanvas := cacheCanvas o; id := v;
     mouseEnabled := mouseEnabled o; name := name o; parent := parent o;
     regX := regX o; regY := regY o; rotation := rotation o;
     scaleX := scaleX o; scaleY := scaleY o; shadow := shadow o;
     visible := visible o; x := x o; y := y o;
     _cacheOffsetX := _cacheOffsetX o; _cacheOffsetY := _cacheOffsetY o;
     cacheOffsetX := cacheOffsetX o; cacheOffsetY := cacheOffsetY o;
     children := children o |}.

Definition set_mouseEnabled (v : bool) (o : t) : t :=
  {| cls := cls o; alpha := alpha o; cacheCanvas := cacheCanvas o;
     id := id o; mouseEnabled := v; name := name o; parent := parent o;
     regX := regX o; regY := regY o; rotation := rotation o;
     scaleX := scaleX o; scaleY := scaleY o; shadow := shadow o;
     visible := visible o; x := x o; y := y o;
     _cacheOffsetX := _cacheOffsetX o; _cacheOffsetY := _cacheOffsetY o;
     cacheOffsetX := cacheOffsetX o; cacheOffsetY := cacheOffsetY o;
     children := children o |}.

Definition set_name (v : option string) (o : t) : t :=
  {| cls := cls o; alpha := alpha o; cacheCanvas := cacheCanvas o;
     id := id o; mouseEnabled := mouseEnabled o; name := v;
     parent := parent o; regX := regX o; regY := regY o;
     rotation := rotation o; scaleX := scaleX o; scaleY := scaleY o;
     shadow := shadow o; visible := visible o; x := x o; y := y o;
     _cacheOffsetX := _cacheOffsetX o; _cacheOffsetY := _cacheOffsetY o;
     cacheOffsetX := cacheOffsetX o; cacheOffsetY := cacheOffsetY o;
     children := children o |}.

Definition set_regX (v : number) (o : t) : t :=
  {| cls := cls o; alpha := alpha o; cacheCanvas := cacheCanvas o;
     id := id o; mouseEnabled := mouseEnabled o; name := name o;
     parent := parent o; regX := v; regY := regY o; rotation := rotation o;
     scaleX := scaleX o; scaleY := scaleY o; shadow := shadow o;
     visible := visible o; x := x o; y := y o;
     _cacheOffsetX := _cacheOffsetX o; _cacheOffsetY := _cacheOffsetY o;
     cacheOffsetX := cacheOffsetX o; cacheOffsetY := cacheOffsetY o;
     children := children o |}.

Definition set_regY (v : number) (o : t) : t :=
  {| cls := cls o; alpha := alpha o; cacheCanvas := cacheCanvas o;
     id := id o; mouseEnabled := mouseEnabled o; name := name o;
     parent := parent o; regX := regX o; regY := v; rotation := rotation o;
     scaleX := scaleX o; scaleY := scaleY o; shadow := shadow o;
     visible := visible o; x := x o; y := y o;
     _cacheOffsetX := _cacheOffsetX o; _cacheOffsetY := _cacheOffsetY o;
     cacheOffsetX := cacheOffsetX o; cacheOffsetY := cacheOffsetY o;
     children := children o |}.

Definition set_rotation (v : number) (o : t) : t :=
  {| cls := cls o; alpha := alpha o; cacheCanvas := cacheCanvas o;
     id := id o; mouseEnabled := mouseEnabled o; name := name o;
     parent := parent o; regX := regX o; regY := regY o; rotation := v;
     scaleX := scaleX o; scaleY := scaleY o; shadow := shadow o;
     visible := visible o; x := x o; y := y o;
     _cacheOffsetX := _cacheOffsetX o; _cacheOffsetY := _cacheOffsetY o;
     cacheOffsetX := cacheOffsetX o; cacheOffsetY := cacheOffsetY o;
     children := children o |}.

Definition set_scaleX (v : number) (o : t) : t :=
  {| cls := cls o; alpha := alpha o; cacheCanvas := cacheCanvas o;
     id := id o; mouseEnabled := mouseEnabled o; name := name o;
     parent := parent o; regX := regX o; regY := regY o;
     rotation := rotation o; scaleX := v; scaleY := scaleY o;
     shadow := shadow o; visible := visible o; x := x o; y := y o;
     _cacheOffsetX := _cacheOffsetX o; _cacheOffsetY := _cacheOffsetY o;
     cacheOffsetX := cacheOffsetX o; cacheOffsetY := cacheOffsetY o;
     children := children o |}.

Definition set_scaleY (v : number) (o : t) : t :=
  {| cls := cls o; alpha := alpha o; cacheCanvas := cacheCanvas o;
     id := id o; mouseEnabled := mouseEnabled o; name := name o;
     parent := parent o; regX := regX o; regY := regY o;
     rotation := rotation o; scaleX := scaleX o; scaleY := v;
     shadow := shadow o; visible := visible o; x := x o; y := y o;
     _cacheOffsetX := _cacheOffsetX o; _cacheOffsetY := _cacheOffsetY o;
     cacheOffsetX := cacheOffsetX o; cacheOffsetY := cacheOffsetY o;
     children := children o |}.

Definition set_shadow (v : option Shadow.t) (o : t) : t :=
  {| cls := cls o; alpha := alpha o; cacheCanvas := cacheCanvas o;
     id := id o; mouseEnabled := mouseEnabled o; name := name o;
     parent := parent o; regX := regX o; regY := regY o;
     rotation := rotation o; scaleX := scaleX o; scaleY := scaleY o;
     shadow := v; visible := visible o; x := x o; y := y o;
     _cacheOffsetX := _cacheOffsetX o; _cacheOffsetY := _cacheOffsetY o;
     cacheOffsetX := cacheOffsetX o; cacheOffsetY := cacheOffsetY o;
     children := children o |}.

Definition set_visible (v : bool) (o : t) : t :=
  {| cls := cls o; alpha := alpha o; cacheCanvas := cacheCanvas o;
     id := id o; mouseEnabled := mouseEnabled o; name := name o;
     parent := parent o; regX := regX o; regY := regY o;
     rotation := rotation o; scaleX := scaleX o; scaleY := scaleY o;
     shadow := shadow o; visible := v; x := x o; y := y o;
     _cacheOffsetX := _cacheOffsetX o; _cacheOffsetY := _cacheOffsetY o;
     cacheOffsetX := cacheOffsetX o; cacheOffsetY := cacheOffsetY o;
     children := children o |}.

Definition set_x (v : number) (o : t) : t :=
  {| cls := cls o; alpha := alpha o; cacheCanvas := cacheCanvas o;
     id := id o; mouseEnabled := mouseEnabled o; name := name o;
     parent := parent o; regX := regX o; regY := regY o;
     rotation := rotation o; scaleX := scaleX o; scaleY := scaleY o;
     shadow := shadow o; visible := visible o; x := v; y := y o;
     _cacheOffsetX := _cacheOffsetX o; _cacheOffsetY := _cacheOffsetY o;
     cacheOffsetX := cacheOffsetX o; cacheOffsetY := cacheOffsetY o;
     children := children o |}.

Definition set_y (v : number) (o : t) : t :=
  {| cls := cls o; alpha := alpha o; cacheCanvas := cacheCanvas o;
     id := id o; mouseEnabled := mouseEnabled o; name := name o;
     parent := parent o; regX := regX o; regY := regY o;
     rotation := rotation o; scaleX := scaleX o; scaleY := scaleY o;
     shadow := shadow o; visible := visible o; x := x o; y := v;
     _cacheOffsetX := _cacheOffsetX o; _cacheOffsetY := _cacheOffsetY o;
     cacheOffsetX := cacheOffsetX o; cacheOffsetY := cacheOffsetY o;
     children := children o |}.

Definition set__cacheOffsetX (v : number) (o : t) : t :=
  {| cls := cls o; alpha := alpha o; cacheCanvas := cacheCanvas o;
     id := id o; mouseEnabled := mouseEnabled o; name := name o;
     parent := parent o; regX := regX o; regY := regY o;
     rotation := rotation o; scaleX := scaleX o; scaleY := scaleY o;
     shadow := shadow o; visible := visible o; x := x o; y := y o;
     _cacheOffsetX := v; _cacheOffsetY := _cacheOffsetY o;
     cacheOffsetX := cacheOffsetX o; cacheOffsetY := cacheOffsetY o;
     children := children o |}.

Definition set__cacheOffsetY (v : number) (o : t) : t :=
  {| cls := cls o; alpha := alpha o; cacheCanvas := cacheCanvas o;
     id := id o; mouseEnabled := mouseEnabled o; name := name o;
     parent := parent o; regX := regX o; regY := regY o;
     rotation := rotation o; scaleX := scaleX o; scaleY := scaleY o;
     shadow := shadow o; visible := visible o; x := x o; y := y o;
     _cacheOffsetX := _cacheOffsetX o; _cacheOffsetY := v;
     cacheOffsetX := cacheOffsetX o; cacheOffsetY := cacheOffsetY o;
     children := children o |}.

Definition set_cacheOffsetX (v : option number) (o : t) : t :=
  {| cls := cls o; alpha := alpha o; cacheCanvas := cacheCanvas o;
     id := id o; mouseEnabled := mouseEnabled o; name := name o;
     parent := parent o; regX := regX o; regY := regY o;
     rotation := rotation o; scaleX := scaleX o; scaleY := scaleY o;
     shadow := shadow o; visible := visible o; x := x o; y := y o;
     _cacheOffsetX := _cacheOffsetX o; _cacheOffsetY := _cacheOffsetY o;
     cacheOffsetX := v; cacheOffsetY := cacheOffsetY o;
     children := children o |}.

Definition set_cacheOffsetY (v : option number) (o : t) : t :=
  {| cls := cls o; alpha := alpha o; cacheCanvas := cacheCanvas o;
     id := id o; mouseEnabled := mouseEnabled o; name := name o;
     parent := parent o; regX := regX o; regY := regY o;
     rotation := rotation o; scaleX := scaleX o; scaleY := scaleY o;
     shadow := shadow o; visible := visible o; x := x o; y := y o;
     _cacheOffsetX := _cacheOffsetX o; _cacheOffsetY := _cacheOffsetY o;
     cacheOffsetX := cacheOffsetX o; cacheOffsetY := v;
     children := children o |}.

Definition set_children (v : option (list t)) (o : t) : t :=
  {| cls := cls o; alpha := alpha o; cacheCanvas := cacheCanvas o;
     id := id o; mouseEnabled := mouseEnabled o; name := name o;
     parent := parent o; regX := regX o; regY := regY o;
     rotation := rotation o; scaleX := scaleX o; scaleY := scaleY o;
     shadow := shadow o; visible := visible o; x := x o; y := y o;
     _cacheOffsetX := _cacheOffsetX o; _cacheOffsetY := _cacheOffsetY o;
     cacheOffsetX := cacheOffsetX o; cacheOffsetY := cacheOffsetY o;
     children := v |}.

(** The property values an object inherits from
    [DisplayObject.prototype]. *)
Definition prototype : t :=
  {| cls := DisplayObjectClass; alpha := 1%float; cacheCanvas := None;
     id := -1; mouseEnabled := true; name := None; parent := None;
     regX := 0%float; regY := 0%float; rotation := 0%float;
     scaleX := 1%float; scaleY := 1%float; shadow := None;
     visible := true; x := 0%float; y := 0%float;
     _cacheOffsetX := 0%float; _cacheOffsetY := 0%float;
     cacheOffsetX := None; cacheOffsetY := None; children := None |}.

(** [p.initialize] *)
Definition initialize (this : t) : M t :=
  let* i := UID.get in
  let this := set_id i this in
  let this := set_children (Some []) this in
  ret this.

(** [new DisplayObject()] *)
Definition new : M t := initialize prototype.

(** [p.isVisible] *)
Definition isVisible (this : t) : bool :=
  visible this
  && PrimFloat.ltb 0%float (alpha this)
  && negb (PrimFloat.eqb (scaleX this) 0%float)
  && negb (PrimFloat.eqb (scaleY this) 0%float).

(** [p.cloneProps] *)
Definition cloneProps (this o : t) : t :=
  let o := set_alpha (alpha this) o in
  let o := set_name (name this) o in
  let o := set_regX (regX this) o in
  let o := set_regY (regY this) o in
  let o := set_rotation (rotation this) o in
  let o := set_scaleX (scaleX this) o in
  let o := set_scaleY (scaleY this) o in
  let o := set_shadow (shadow this) o in
  let o := set_visible (visible this) o in
  let o := set_x (x this) o in
  let o := set_y (y this) o in
  let o := set_mouseEnabled (mouseEnabled this) o in
  o.

(** [p.clone] *)
Definition clone (this : t) : M t :=
  let* o := new in
  let o := cloneProps this o in
  ret o.

(** [p.uncache].  The two assignments name [cacheOffsetX] and
    [cacheOffsetY], not the underscored properties [draw] reads. *)
Definition uncache (this : t) : t :=
  let this := set_cacheCanvas None this in
  let this := set_cacheOffsetY (Some 0%float) this in
  let this := set_cacheOffsetX (Some 0%float) this in
  this.

(** [p.getStage]: [while (o.parent) { o = o.parent; }] *)
Fixpoint getStage_loop (o : t) : t :=
  match parent o with
  | Some p => getStage_loop p
  | None => o
  end.

Definition getStage (this : t) : option t :=
  let o := getStage_loop this in
  match cls o with
  | StageClass => Some o
  | _ => None
  end.

(** *** Values in operator position

    [!target instanceof Stage] is read by the interpreter as
    [(!target) instanceof Stage]: unary [!] binds tighter than
    [instanceof].  Both operators are given on the values they can meet
    here. *)
Inductive value :=
| VNull
| VBoolean (b : bool)
| VObject (o : t).

Definition ToBoolean (v : value) : bool :=
  match v with
  | VNull => false
  | VBoolean b => b
  | VObject _ => true
  end.

(** [!v] *)
Definition js_not (v : value) : value := VBoolean (negb (ToBoolean v)).

(** [v instanceof Stage]: false on anything that is not an object. *)
Definition instanceof_Stage (v : value) : bool :=
  match v with
  | VObject o => match cls o with StageClass => true | _ => false end
  | _ => false
  end.

Section WithPlatform.
Context {platform : Platform}.

(** [p.draw] *)
Definition draw (this : t) (ctx : handle) (ignoreCache : bool) : M bool :=
  match cacheCanvas this with
  | Some cc =>
      if ignoreCache then ret false
      else
        let* _ := ctx_translate ctx (_cacheOffsetX this) (_cacheOffsetY this) in
        let* _ := ctx_drawImage ctx cc 0%float 0%float in
        let* _ := ctx_translate ctx (- _cacheOffsetX this)%float
                                    (- _cacheOffsetY this)%float in
        ret true
  | None => ret false
  end.

(** The call [this.draw(ctx, ignoreCache)] as a method lookup: an
    object made by [DisplayObject] runs [draw] above; any other class
    overrides it with code outside the two files, of which only the
    call is observed: what such a [draw] paints is not in the world that
    comes back.  What is said of a canvas after this call is therefore
    said of the canvas as the call receives it, or of a receiver made by
    [DisplayObject]. *)
Definition call_draw (this : t) (ctx : handle) (ignoreCache : bool) : M unit :=
  let* _ := log (EvCall (id this) (m_draw ctx ignoreCache)) in
  match cls this with
  | DisplayObjectClass => let* _ := draw this ctx ignoreCache in ret tt
  | _ => ret tt
  end.

(** [p.cache] *)
Definition cache (this : t) (x y : number) (width height : Z) : M t :=
  let* r :=
    match cacheCanvas this with
    | None =>
        let* c := createElement_canvas in
        ret (set_cacheCanvas (Some c) this, c, getContext c)
    | Some c => ret (this, c, getContext c)
    end in
  let '(this, c, ctx) := r in
  let* _ := set_width c width in
  let* _ := set_height c height in
  let* _ := ctx_translate ctx (- x)%float (- y)%float in
  let* _ := call_draw this ctx true in
  let this := set__cacheOffsetX x this in
  let this := set__cacheOffsetY y this in
  ret this.

(** The statements of [cache] up to its call of [draw] (lines 144 to
    153): they return the receiver, which holds its cache canvas by then,
    and the context [draw] is about to be called with. *)
Definition cache_prepare (this : t) (x y : number) (width height : Z)
  : M (t * handle) :=
  let* r :=
    match cacheCanvas this with
    | None =>
        let* c := createElement_canvas in
        ret (set_cacheCanvas (Some c) this, c, getContext c)
    | Some c => ret (this, c, getContext c)
    end in
  let '(this, c, ctx) := r in
  let* _ := set_width c width in
  let* _ := set_height c height in
  let* _ := ctx_translate ctx (- x)%float (- y)%float in
  ret (this, ctx).
End WithPlatform.

Section WithGeometry.
Context {G : Type} {geometry : Matrix2D.Geometry G}.

(** The [while (true)] loop of [getConcatenatedMatrix]; it returns the
    last [target] together with the matrix. *)
Fixpoint getConcatenatedMatrix_loop (target : t) (mtx : Matrix2D.t G)
  : t * Matrix2D.t G :=
  let mtx := Matrix2D.prependTransform mtx (x target) (y target)
               (scaleX target) (scaleY target) (rotation target)
               (regX target) (regY target) in
  let mtx := Matrix2D.set_alpha
               (PrimFloat.mul (Matrix2D.alpha mtx) (alpha target)) mtx in
  let mtx := Matrix2D.set_shadow
               (match Matrix2D.shadow mtx with
                | Some s => Some s
                | None => shadow target
                end) mtx in
  match parent target with
  | None => (target, mtx)
  | Some p => getConcatenatedMatrix_loop p mtx
  end.

(** [p.getConcatenatedMatrix] *)
Definition getConcatenatedMatrix (this : t) (mtx : option (Matrix2D.t G))
  : option (Matrix2D.t G) :=
  let mtx :=
    match mtx with
    | Some m => Matrix2D.identity m
    | None => Matrix2D.new
    end in
  let '(target, mtx) := getConcatenatedMatrix_loop this mtx in
  if instanceof_Stage (js_not (VObject target)) then None
  else Some mtx.

(** [p.localToGlobal] *)
Definition localToGlobal (this : t) (lx ly : number) : option Point.t :=
  match getConcatenatedMatrix this None with
  | None => None
  | Some mtx =>
      let mtx := Matrix2D.append mtx 1%float 0%float 0%float 1%float lx ly in
      Some (Point.new (Matrix2D.tx mtx) (Matrix2D.ty mtx))
  end.

(** [p.globalToLocal] *)
Definition globalToLocal (this : t) (gx gy : number)
  : completion (option Point.t) :=
  match getConcatenatedMatrix this None with
  | None => Normal None
  | Some mtx =>
      match Matrix2D.invert mtx with
      | Throw e => Throw e
      | Normal mtx =>
          let mtx := Matrix2D.append mtx 1%float 0%float 0%float 1%float gx gy in
          Normal (Some (Point.new (Matrix2D.tx mtx) (Matrix2D.ty mtx)))
      end
  end.


End WithGeometry.
(** [p.toString].  The [+] operator turns a null [name] into the text
    [null]. *)
Definition text_of_name (n : option string) : string :=
  match n with
  | Some v => v
  | None => "null"
  end.

Definition toString (this : t) : string :=
  ("[DisplayObject (name=" ++ text_of_name (name this) ++ ")]")%string.
End DisplayObject.

(** ** Stage.js *)

Module ActiveMouseEvent.
(** The object a stage keeps in [_activeMouseEvent].  The stage reads its
    [onMouseMove] and [onMouseUp] slots; it is an ordinary object, so it
    may carry an [onMouseDown] property as well. *)
Record t := mk {
  onMouseMove : option Callback;
  onMouseUp : option Callback;
  onMouseDown : option Callback
}.
End ActiveMouseEvent.

Module DomEvent.
(** The browser's mouse event. *)
Record t := mk { pageX : number; pageY : number }.
End DomEvent.

Module Stage.
(** A stage is a [Container], hence a [DisplayObject] ([base], of class
    [StageClass]), with the properties [Stage.js] adds. *)
Record t := mk {
  base : DisplayObject.t;
  autoClear : bool;
  canvas : option handle;
  mouseX : option number;
  mouseY : option number;
  mouseEventsEnabled : bool;
  onMouseMove : option Callback;
  onMouseUp : option Callback;
  onMouseDown : option Callback;
  _tmpCanvas : option handle;
  _activeMouseEvent : option ActiveMouseEvent.t
}.

(** The property values [Stage.prototype] gives a stage, over the
    [Container] it extends. *)
Definition prototype (container : DisplayObject.t) : t :=
  {| base := container; autoClear := true; canvas := None;
     mouseX := None; mouseY := None; mouseEventsEnabled := false;
     onMouseMove := None; onMouseUp := None; onMouseDown := None;
     _tmpCanvas := None; _activeMouseEvent := None |}.

(** A call of a method that [Stage] inherits from [Container]. *)
Definition call (this : t) (m : Method) : M unit :=
  log (EvCall (DisplayObject.id (base this)) m).

(** [this.f(evt)] for a callback slot [f] that may be empty. *)
Definition invoke (owner : Owner) (f : option Callback) (evt : MouseEvent.t) : M unit :=
  match f with
  | Some f => log (EvCallback owner f evt)
  | None => ret tt
  end.

Section WithPlatform.
Context {platform : Platform}.

(** [p.clear] *)
Definition clear (this : t) : M unit :=
  match canvas this with
  | None => ret tt
  | Some c =>
      let ctx := getContext c in
      let* w := get_width c in
      let* h := get_height c in
      ctx_clearRect ctx 0 0 w h
  end.

(** [p.update]; [p.tick] is the same function. *)
Definition update (this : t) : M unit :=
  match canvas this with
  | None => ret tt
  | Some c =>
      let ctx := getContext c in
      let* _ := if autoClear this then clear this else ret tt in
      let* _ := call this (m_updateContext ctx) in
      let* _ := call this (m_draw ctx false) in
      call this m_revertContext
  end.

Definition tick : t -> M unit := update.

(** [p.toImage].  [data] and [compositeOperation] are function-scoped
    variables: they are undefined unless the first [if (backgroundColor)]
    ran, and the second one reads them. *)
Definition toImage (this : t) (mimeType backgroundColor : option string) : M string :=
  let mimeType :=
    if negb (truthy mimeType) then "image/png"%string else string_value mimeType in
  match canvas this with
  | None => throw TypeError
  | Some c =>
      let ctx := getContext c in
      let* w := get_width c in
      let* h := get_height c in
      let* saved :=
        if truthy backgroundColor then
          let* data := ctx_getImageData ctx 0 0 w h in
          let* compositeOperation := ctx_get_globalCompositeOperation ctx in
          let* _ := ctx_set_globalCompositeOperation ctx "destination-over" in
          let* _ := ctx_set_fillStyle ctx (string_value backgroundColor) in
          let* _ := ctx_fillRect ctx 0 0 w h in
          ret (Some (data, compositeOperation))
        else ret None in
      let* imageData := toDataURL c mimeType in
      let* _ :=
        if truthy backgroundColor then
          let* _ := ctx_clearRect ctx 0 0 w h in
          match saved with
          | Some (data, compositeOperation) =>
              let* _ := ctx_putImageData ctx data 0 0 in
              ctx_set_globalCompositeOperation ctx compositeOperation
          | None => throw TypeError
          end
        else ret tt in
      ret imageData
  end.
End WithPlatform.

(** [p._handleMouseUp] *)
Definition _handleMouseUp (this : t) (e : DomEvent.t) : M unit :=
  let evt := MouseEvent.new "onMouseUp" (mouseX this) (mouseY this) in
  let* _ := invoke OfStage (onMouseUp this) evt in
  match _activeMouseEvent this with
  | Some a => invoke OfActiveMouseEvent (ActiveMouseEvent.onMouseUp a) evt
  | None => ret tt
  end.

(** [p._handleMouseDown] *)
Definition _handleMouseDown (this : t) (e : DomEvent.t) : M unit :=
  match onMouseDown this with
  | Some f =>
      log (EvCallback OfStage f
             (MouseEvent.new "onMouseDown" (mouseX this) (mouseY this)))
  | None => ret tt
  end.
(** Assignments to [this.canvas], [this.mouseX] and [this.mouseY]. *)
Definition set_canvas (v : option handle) (s : t) : t :=
  {| base := base s; autoClear := autoClear s; canvas := v;
     mouseX := mouseX s; mouseY := mouseY s;
     mouseEventsEnabled := mouseEventsEnabled s;
     onMouseMove := onMouseMove s; onMouseUp := onMouseUp s;
     onMouseDown := onMouseDown s; _tmpCanvas := _tmpCanvas s;
     _activeMouseEvent := _activeMouseEvent s |}.

Definition set_mouseX (v : option number) (s : t) : t :=
  {| base := base s; autoClear := autoClear s; canvas := canvas s;
     mouseX := v; mouseY := mouseY s;
     mouseEventsEnabled := mouseEventsEnabled s;
     onMouseMove := onMouseMove s; onMouseUp := onMouseUp s;
     onMouseDown := onMouseDown s; _tmpCanvas := _tmpCanvas s;
     _activeMouseEvent := _activeMouseEvent s |}.

Definition set_mouseY (v : option number) (s : t) : t :=
  {| base := base s; autoClear := autoClear s; canvas := canvas s;
     mouseX := mouseX s; mouseY := v;
     mouseEventsEnabled := mouseEventsEnabled s;
     onMouseMove := onMouseMove s; onMouseUp := onMouseUp s;
     onMouseDown := onMouseDown s; _tmpCanvas := _tmpCanvas s;
     _activeMouseEvent := _activeMouseEvent s |}.

(** [p._handleMouseMove].  Where a canvas lies on the page ([offsetLeft],
    [offsetTop]) is layout, which the document above does not hold: it is
    the parameter [offset]. *)
Definition _handleMouseMove (offset : handle -> number * number)
    (this : t) (e : DomEvent.t) : M t :=
  match canvas this with
  | None =>
      let this := set_mouseY None this in
      let this := set_mouseX None this in
      ret this
  | Some c =>
      let this := set_mouseX
                    (Some (PrimFloat.sub (DomEvent.pageX e) (fst (offset c)))) this in
      let this := set_mouseY
                    (Some (PrimFloat.sub (DomEvent.pageY e) (snd (offset c)))) this in
      let evt := MouseEvent.new "onMouseMove" (mouseX this) (mouseY this) in
      let* _ := invoke OfStage (onMouseMove this) evt in
      let* _ :=
        match _activeMouseEvent this with
        | Some a => invoke OfActiveMouseEvent (ActiveMouseEvent.onMouseMove a) evt
        | None => ret tt
        end in
      ret this
  end.

(** [p.toString] *)
Definition toString (this : t) : string :=
  ("[Stage (name=" ++ DisplayObject.text_of_name (DisplayObject.name (base this))
     ++ ")]")%string.

(** *** Construction

    [initialize] registers event listeners.  The objects they are
    registered on, the three closures it registers, and the third
    argument of [addEventListener] where it is given: *)
Inductive EventTarget :=
| the_window
| the_document
| the_canvas (c : handle).

Inductive Handler :=
| calls_handleMouseUp
| calls_handleMouseMove
| calls_handleMouseDown.

Record Listener := mkListener {
  target : EventTarget;
  type : string;
  handler : Handler;
  useCapture : option bool
}.

(** Which of [window.addEventListener] and [document.addEventListener]
    the browser has. *)
Record Browser := mkBrowser {
  window_addEventListener : bool;
  document_addEventListener : bool
}.

(** A stage under construction: [initialize] also writes [mouseChildren],
    a property [Container] declares. *)
Record instance := mkInstance {
  stage : t;
  mouseChildren : option bool
}.

Section Construction.
(** [Container_initialize] is the [initialize] of [Container], and
    [cloneProps] the one a stage inherits; [Container.js] is not among the
    files, so both are parameters. *)
Variable browser : Browser.
Variable Container_initialize : instance -> M instance.
Variable cloneProps : t -> instance -> M instance.

(** [p.initialize], with the listeners registered so far passed in and
    out: they outlive an exception. *)
Definition initialize (this : instance) (canvas : option handle)
    (listeners : list Listener) (w : World)
  : completion instance * list Listener * World :=
  match Container_initialize this w with
  | (Throw e, w) => (Throw e, listeners, w)
  | (Normal this, w) =>
      let this := mkInstance (set_canvas canvas (stage this)) (mouseChildren this) in
      let this := mkInstance (stage this) (Some true) in
      let listeners :=
        if window_addEventListener browser then
          listeners ++ [mkListener the_window "mouseup" calls_handleMouseUp (Some false)]
        else if document_addEventListener browser then
          listeners ++ [mkListener the_document "mouseup" calls_handleMouseUp (Some false)]
        else listeners in
      match canvas with
      | None => (Throw TypeError, listeners, w)
      | Some c =>
          let listeners :=
            listeners ++ [mkListener (the_canvas c) "mousemove" calls_handleMouseMove None] in
          let listeners :=
            listeners ++ [mkListener (the_canvas c) "mousedown" calls_handleMouseDown None] in
          (Normal this, listeners, w)
      end
  end.

(** [new Stage(canvas)]: an object that inherits from [Stage.prototype],
    initialized. *)
Definition new (container : DisplayObject.t) (canvas : option handle)
    (listeners : list Listener) (w : World)
  : completion instance * list Listener * World :=
  initialize (mkInstance (prototype container) None) canvas listeners w.

(** [p.clone] *)
Definition clone (container : DisplayObject.t) (this : t)
    (listeners : list Listener) (w : World)
  : completion instance * list Listener * World :=
  match new container None listeners w with
  | (Throw e, listeners, w) => (Throw e, listeners, w)
  | (Normal o, listeners, w) =>
      match cloneProps this o w with
      | (Throw e, w) => (Throw e, listeners, w)
      | (Normal o, w) => (Normal o, listeners, w)
      end
  end.
End Construction.
End Stage.

(** * Vocabulary of the statements *)

(** The parent chain of a node, the node first. *)
Fixpoint chain (o : DisplayObject.t) : list DisplayObject.t :=
  o :: match DisplayObject.parent o with
       | Some p => chain p
       | None => []
       end.

(** The alpha values along a list of nodes multiplied in list order, the
    way a running product starting at 1 accumulates them. *)
Definition alpha_product (l : list DisplayObject.t) : number :=
  fold_left PrimFloat.mul (map DisplayObject.alpha l) 1%float.

(** The first shadow that is set along a list of nodes. *)
Fixpoint first_shadow (l : list DisplayObject.t) : option Shadow.t :=
  match l with
  | [] => None
  | o :: rest =>
      match DisplayObject.shadow o with
      | Some s => Some s
      | None => first_shadow rest
      end
  end.

(** A display object as [new DisplayObject()] leaves it when the UID
    counter stands at 0: no parent, not a stage. *)
Definition detached : DisplayObject.t :=
  DisplayObject.set_children (Some [])
    (DisplayObject.set_id 0 DisplayObject.prototype).

(** The [draw] calls among a list of events: receiver, context and
    [ignoreCache]. *)
Fixpoint draw_calls (l : list Event) : list (Z * handle * bool) :=
  match l with
  | [] => []
  | EvCall receiver (m_draw ctx ignoreCache) :: rest =>
      (receiver, ctx, ignoreCache) :: draw_calls rest
  | _ :: rest => draw_calls rest
  end.

Definition in_rect (rx ry rw rh px py : Z) : bool :=
  (rx <=? px) && (px <? rx + rw) && (ry <=? py) && (py <? ry + rh).

(** A platform to run examples on: rectangles are cleared and filled
    without regard to the transform, filling paints opaque black (under
    the existing pixels when the mode is [destination-over]), images are
    not rasterized, and the encoder answers the MIME type it was asked for
    followed by whether the top left pixel is painted. *)
Definition example_platform : Platform := {|
  paint_fillRect cv rx ry rw rh px py :=
    if in_rect rx ry rw rh px py then
      match Canvas.pixels cv px py with
      | RGBA _ _ _ 0 => RGBA 0 0 0 255
      | old =>
          if String.eqb (Canvas.globalCompositeOperation cv) "destination-over"
          then old else RGBA 0 0 0 255
      end
    else Canvas.pixels cv px py;
  paint_clearRect cv rx ry rw rh px py :=
    if in_rect rx ry rw rh px py then transparent else Canvas.pixels cv px py;
  paint_drawImage cv image dx dy px py := Canvas.pixels cv px py;
  encode cv mimeType :=
    match Canvas.pixels cv 0 0 with
    | RGBA _ _ _ 0 => mimeType ++ ";clear"
    | _ => mimeType ++ ";painted"
    end%string
|}.

(** A 4 by 3 canvas whose first column is transparent and whose other
    pixels are opaque red. *)
Definition example_canvas : Canvas.t :=
  Canvas.set_pixels
    (fun px py => if px =? 0 then transparent else RGBA 255 0 0 255)
    (Canvas.blank 4 3).

(** A document with that canvas alone, and the UID counter at 1. *)
Definition example_world : World :=
  {| canvases := {[ 1%positive := example_canvas ]};
     uid_nextID := 1;
     trace := [] |}.

(** [detached] once a cache of it was drawn into canvas 1. *)
Definition cached : DisplayObject.t :=
  DisplayObject.set__cacheOffsetY 20%float
    (DisplayObject.set__cacheOffsetX 10%float
       (DisplayObject.set_cacheCanvas (Some 1%positive) detached)).

(** A stage bound to canvas 1, with a callback in every slot the pointer
    handlers look at, and an active object that has callbacks of its own. *)
Definition example_stage : Stage.t :=
  {| Stage.base :=
       {| DisplayObject.cls := DisplayObject.StageClass;
          DisplayObject.alpha := 1%float;
          DisplayObject.cacheCanvas := None;
          DisplayObject.id := 0;
          DisplayObject.mouseEnabled := true;
          DisplayObject.name := None;
          DisplayObject.parent := None;
          DisplayObject.regX := 0%float;
          DisplayObject.regY := 0%float;
          DisplayObject.rotation := 0%float;
          DisplayObject.scaleX := 1%float;
          DisplayObject.scaleY := 1%float;
          DisplayObject.shadow := None;
          DisplayObject.visible := true;
          DisplayObject.x := 0%float;
          DisplayObject.y := 0%float;
          DisplayObject._cacheOffsetX := 0%float;
          DisplayObject._cacheOffsetY := 0%float;
          DisplayObject.cacheOffsetX := None;
          DisplayObject.cacheOffsetY := None;
          DisplayObject.children := Some [] |};
     Stage.autoClear := true;
     Stage.canvas := Some 1%positive;
     Stage.mouseX := Some 3%float;
     Stage.mouseY := Some 2%float;
     Stage.mouseEventsEnabled := false;
     Stage.onMouseMove := None;
     Stage.onMouseUp := Some "stageUp"%string;
     Stage.onMouseDown := Some "stageDown"%string;
     Stage._tmpCanvas := None;
     Stage._activeMouseEvent :=
       Some {| ActiveMouseEvent.onMouseMove := None;
               ActiveMouseEvent.onMouseUp := Some "activeUp"%string;
               ActiveMouseEvent.onMouseDown := Some "activeDown"%string |} |}.

Definition example_event : DomEvent.t :=
  {| DomEvent.pageX := 3%float; DomEvent.pageY := 2%float |}.

(** The callbacks a stage invokes on a press, when they are set. *)
Definition root_callbacks (slot : option Callback) (evt : MouseEvent.t) : list Event :=
  match slot with
  | Some f => [EvCallback OfStage f evt]
  | None => []
  end.

Definition active_callbacks (a : option ActiveMouseEvent.t)
    (slot : ActiveMouseEvent.t -> option Callback) (evt : MouseEvent.t) : list Event :=
  match a with
  | Some a =>
      match slot a with
      | Some f => [EvCallback OfActiveMouseEvent f evt]
      | None => []
      end
  | None => []
  end.

(** What C3 asks of a press: with [evt] the event value of the press, the
    stage's own [onMouseDown] is invoked on it if set, and so is the
    [onMouseDown] of the active object if there is one that has it. *)
Definition press_is_forwarded (S : Stage.t) (e : DomEvent.t) (w : World) : Prop :=
  let evt := MouseEvent.new "onMouseDown" (Stage.mouseX S) (Stage.mouseY S) in
  let events := trace (snd (Stage._handleMouseDown S e w)) in
  (forall f, Stage.onMouseDown S = Some f -> In (EvCallback OfStage f evt) events)
  /\ (forall a f,
        Stage._activeMouseEvent S = Some a ->
        ActiveMouseEvent.onMouseDown a = Some f ->
        In (EvCallback OfActiveMouseEvent f evt) events).

(** What attaching [child] under [container] leaves in [child.parent]. *)
Definition attached (container child : DisplayObject.t) : DisplayObject.t :=
  {| DisplayObject.cls := DisplayObject.cls child;
     DisplayObject.alpha := DisplayObject.alpha child;
     DisplayObject.cacheCanvas := DisplayObject.cacheCanvas child;
     DisplayObject.id := DisplayObject.id child;
     DisplayObject.mouseEnabled := DisplayObject.mouseEnabled child;
     DisplayObject.name := DisplayObject.name child;
     DisplayObject.parent := Some container;
     DisplayObject.regX := DisplayObject.regX child;
     DisplayObject.regY := DisplayObject.regY child;
     DisplayObject.rotation := DisplayObject.rotation child;
     DisplayObject.scaleX := DisplayObject.scaleX child;
     DisplayObject.scaleY := DisplayObject.scaleY child;
     DisplayObject.shadow := DisplayObject.shadow child;
     DisplayObject.visible := DisplayObject.visible child;
     DisplayObject.x := DisplayObject.x child;
     DisplayObject.y := DisplayObject.y child;
     DisplayObject._cacheOffsetX := DisplayObject._cacheOffsetX child;
     DisplayObject._cacheOffsetY := DisplayObject._cacheOffsetY child;
     DisplayObject.cacheOffsetX := DisplayObject.cacheOffsetX child;
     DisplayObject.cacheOffsetY := DisplayObject.cacheOffsetY child;
     DisplayObject.children := DisplayObject.children child |}.

Definition example_shadow : Shadow.t :=
  {| Shadow.color := "#000000"; Shadow.offsetX := 2%float;
     Shadow.offsetY := 2%float; Shadow.blur := 4%float |}.

(** A half-transparent node under a half-transparent stage that casts a
    shadow. *)
Definition example_child : DisplayObject.t :=
  attached
    (DisplayObject.set_shadow (Some example_shadow)
       (DisplayObject.set_alpha 0.5%float (Stage.base example_stage)))
    (DisplayObject.set_alpha 0.5%float detached).

(** The end of a parent chain. *)
Definition root (o : DisplayObject.t) : DisplayObject.t := List.last (chain o) o.

(** The local transforms of a list of nodes prepended one after the other
    to a matrix, the first node first. *)
Definition prepend_transforms {G : Type} {geometry : Matrix2D.Geometry G}
    (l : list DisplayObject.t) (g : G) : G :=
  fold_left
    (fun g o =>
       Matrix2D.g_prependTransform g
         (DisplayObject.x o) (DisplayObject.y o)
         (DisplayObject.scaleX o) (DisplayObject.scaleY o)
         (DisplayObject.rotation o)
         (DisplayObject.regX o) (DisplayObject.regY o))
    l g.

(** The canvas of the examples lies 1 pixel right of and 2 pixels below
    the page's corner. *)
Definition example_offset (c : handle) : number * number :=
  (1%float, 2%float).

(** The canvas [cache(x, y, width, height)] hands to [draw]: blank, of
    the size the platform makes of [width] and [height], its context
    translated by [(-x, -y)]. *)
Definition cache_canvas (x y : number) (width height : Z) : Canvas.t :=
  Canvas.set_transform [TranslateBy (- x)%float (- y)%float]
    (Canvas.blank (dimension 300 width) (dimension 150 height)).

(** An event that is a call on the context [ctx]. *)
Definition on_context (ctx : handle) (e : Event) : Prop :=
  exists call, e = EvCtx ctx call.

(** The MIME type [toImage] asks the encoder for. *)
Definition export_type (mimeType : option string) : string :=
  if negb (truthy mimeType) then "image/png"%string else string_value mimeType.

(** A canvas once [toImage] has filled it with a background colour: the
    whole of it filled in that colour under the mode [destination-over]. *)
Definition backed {platform : Platform} (color : string) (cv : Canvas.t) : Canvas.t :=
  let styled :=
    Canvas.set_fillStyle color
      (Canvas.set_globalCompositeOperation "destination-over" cv) in
  Canvas.set_pixels
    (paint_fillRect styled 0 0 (Canvas.width cv) (Canvas.height cv)) styled.

(** The listener for releases that [initialize] registers, on the window
    if the browser lets it, else on the document, else nowhere. *)
Definition mouseup_listener (browser : Stage.Browser) : list Stage.Listener :=
  if Stage.window_addEventListener browser then
    [Stage.mkListener Stage.the_window "mouseup" Stage.calls_handleMouseUp (Some false)]
  else if Stage.document_addEventListener browser then
    [Stage.mkListener Stage.the_document "mouseup" Stage.calls_handleMouseUp (Some false)]
  else [].

(** A browser of today, and a [Container] whose [initialize] does what
    [DisplayObject]'s does. *)
Definition example_browser : Stage.Browser :=
  {| Stage.window_addEventListener := true;
     Stage.document_addEventListener := true |}.

Definition example_Container_initialize (this : Stage.instance) : M Stage.instance :=
  let* i := UID.get in
  ret (Stage.mkInstance
         {| Stage.base := DisplayObject.set_children (Some [])
                            (DisplayObject.set_id i (Stage.base (Stage.stage this)));
            Stage.autoClear := Stage.autoClear (Stage.stage this);
            Stage.canvas := Stage.canvas (Stage.stage this);
            Stage.mouseX := Stage.mouseX (Stage.stage this);
            Stage.mouseY := Stage.mouseY (Stage.stage this);
            Stage.mouseEventsEnabled := Stage.mouseEventsEnabled (Stage.stage this);
            Stage.onMouseMove := Stage.onMouseMove (Stage.stage this);
            Stage.onMouseUp := Stage.onMouseUp (Stage.stage this);
            Stage.onMouseDown := Stage.onMouseDown (Stage.stage this);
            Stage._tmpCanvas := Stage._tmpCanvas (Stage.stage this);
            Stage._activeMouseEvent := Stage._activeMouseEvent (Stage.stage this) |}
         (Stage.mouseChildren this)).

(** A document whose one canvas, 0 by 3, has no pixels. *)
Definition example_empty_world : World :=
  {| canvases := {[ 1%positive := Canvas.blank 0 3 ]};
     uid_nextID := 1;
     trace := [] |}.

(** A platform that does rasterize images, without regard to the
    transform: a pixel of the image that is not transparent replaces the
    pixel under it. *)
Definition example_blitter : Platform := {|
  paint_fillRect := paint_fillRect (Platform := example_platform);
  paint_clearRect := paint_clearRect (Platform := example_platform);
  paint_drawImage cv image dx dy px py :=
    if Canvas.in_bounds image px py then
      match Canvas.pixels image px py with
      | RGBA _ _ _ 0 => Canvas.pixels cv px py
      | p => p
      end
    else Canvas.pixels cv px py;
  encode := encode (Platform := example_platform)
|}.

(** A document with the example canvas and a blank canvas of the same
    size. *)
Definition example_screen_world : World :=
  {| canvases := <[ 2%positive := Canvas.blank 4 3 ]> {[ 1%positive := example_canvas ]};
     uid_nextID := 1;
     trace := [] |}.

(** * Properties *)

(** ** Numbers *)

Lemma float_le_0_not_gt_0 (a : number) :
  PrimFloat.leb a 0%float = true -> PrimFloat.ltb 0%float a = false.
Proof.
  rewrite leb_spec, ltb_spec. unfold SFleb, SFltb.
  change (Prim2SF 0%float) with (S754_zero false).
  destruct (Prim2SF a) as [s | s | | s m e]; try destruct s; simpl; congruence.
Qed.

(** ** Parent chains *)

(** Induction along the [parent] links. *)
Lemma parent_ind (P : DisplayObject.t -> Prop) :
  (forall o, (forall p, DisplayObject.parent o = Some p -> P p) -> P o) ->
  forall o, P o.
Proof.
  intros step.
  fix IH 1.
  intros o. apply step. intros p Hp.
  destruct o as [? ? ? ? ? ? par ? ? ? ? ? ? ? ? ? ? ? ? ? ?].
  simpl in Hp. destruct par as [q|]; [|discriminate].
  injection Hp as <-. apply IH.
Qed.

Lemma chain_unfold (o : DisplayObject.t) :
  chain o = o :: match DisplayObject.parent o with
                 | Some p => chain p
                 | None => []
                 end.
Proof. destruct o; reflexivity. Qed.

Section Conversion.
Context {G : Type} {geometry : Matrix2D.Geometry G}.

Lemma getConcatenatedMatrix_loop_unfold (target : DisplayObject.t) (mtx : Matrix2D.t G) :
  DisplayObject.getConcatenatedMatrix_loop target mtx =
  let mtx := Matrix2D.prependTransform mtx
               (DisplayObject.x target) (DisplayObject.y target)
               (DisplayObject.scaleX target) (DisplayObject.scaleY target)
               (DisplayObject.rotation target)
               (DisplayObject.regX target) (DisplayObject.regY target) in
  let mtx := Matrix2D.set_alpha
               (PrimFloat.mul (Matrix2D.alpha mtx) (DisplayObject.alpha target)) mtx in
  let mtx := Matrix2D.set_shadow
               (match Matrix2D.shadow mtx with
                | Some s => Some s
                | None => DisplayObject.shadow target
                end) mtx in
  match DisplayObject.parent target with
  | None => (target, mtx)
  | Some p => DisplayObject.getConcatenatedMatrix_loop p mtx
  end.
Proof. destruct target; reflexivity. Qed.

(** The test that closes [getConcatenatedMatrix] never fires: [!target]
    is the boolean [false], and a boolean is an instance of nothing. *)
Lemma not_target_instanceof_Stage (target : DisplayObject.t) :
  DisplayObject.instanceof_Stage (DisplayObject.js_not (DisplayObject.VObject target)) = false.
Proof. reflexivity. Qed.

Lemma getConcatenatedMatrix_returns (this : DisplayObject.t) (mtx : option (Matrix2D.t G)) :
  exists m, DisplayObject.getConcatenatedMatrix this mtx = Some m.
Proof.
  unfold DisplayObject.getConcatenatedMatrix.
  destruct (DisplayObject.getConcatenatedMatrix_loop this _) as [target m].
  rewrite not_target_instanceof_Stage. eauto.
Qed.

Lemma localToGlobal_returns (this : DisplayObject.t) (lx ly : number) :
  exists pt, DisplayObject.localToGlobal this lx ly = Some pt.
Proof.
  unfold DisplayObject.localToGlobal.
  destruct (getConcatenatedMatrix_returns this None) as [m ->]. eauto.
Qed.

(** The [target] the loop ends on is the root [getStage] climbs to. *)
Lemma getConcatenatedMatrix_loop_target (target : DisplayObject.t) :
  forall mtx : Matrix2D.t G,
    fst (DisplayObject.getConcatenatedMatrix_loop target mtx) =
    DisplayObject.getStage_loop target.
Proof.
  induction target as [target IH] using parent_ind. intros mtx.
  rewrite getConcatenatedMatrix_loop_unfold. cbv zeta.
  destruct target as [? ? ? ? ? ? par ? ? ? ? ? ? ? ? ? ? ? ? ? ?].
  cbn [DisplayObject.parent DisplayObject.getStage_loop] in *.
  destruct par as [p|]; [|reflexivity].
  apply (IH p eq_refl).
Qed.

(** What the loop leaves in the accumulators, from any starting matrix. *)
Lemma getConcatenatedMatrix_loop_accumulators (target : DisplayObject.t) :
  forall mtx : Matrix2D.t G,
    let m := snd (DisplayObject.getConcatenatedMatrix_loop target mtx) in
    Matrix2D.alpha m =
      fold_left PrimFloat.mul (map DisplayObject.alpha (chain target)) (Matrix2D.alpha mtx)
    /\ Matrix2D.shadow m =
         match Matrix2D.shadow mtx with
         | Some s => Some s
         | None => first_shadow (chain target)
         end.
Proof.
  induction target as [target IH] using parent_ind. intros mtx.
  rewrite getConcatenatedMatrix_loop_unfold, chain_unfold. cbv zeta.
  set (mtx' := Matrix2D.set_shadow _ _).
  assert (Ha : Matrix2D.alpha mtx' =
               PrimFloat.mul (Matrix2D.alpha mtx) (DisplayObject.alpha target))
    by reflexivity.
  assert (Hs : Matrix2D.shadow mtx' =
               match Matrix2D.shadow mtx with
               | Some s => Some s
               | None => DisplayObject.shadow target
               end) by reflexivity.
  clearbody mtx'.
  destruct (DisplayObject.parent target) as [p|] eqn:Hp.
  - destruct (IH p eq_refl mtx') as [IHa IHs].
    split.
    + rewrite IHa, Ha. reflexivity.
    + rewrite IHs, Hs. simpl.
      destruct (Matrix2D.shadow mtx); [reflexivity|].
      destruct (DisplayObject.shadow target); reflexivity.
  - simpl. split.
    + exact Ha.
    + rewrite Hs.
      destruct (Matrix2D.shadow mtx); [reflexivity|].
      destruct (DisplayObject.shadow target); reflexivity.
Qed.

(** A node on a stage: half of a half in the alpha accumulator, and the
    stage's shadow in the slot. *)
Example example_child_accumulators :
  exists m,
    DisplayObject.getConcatenatedMatrix example_child None = Some m
    /\ Matrix2D.alpha m = 0.25%float
    /\ Matrix2D.shadow m = Some example_shadow.
Proof. eexists. split; [reflexivity|]. split; reflexivity. Qed.

Example example_child_on_stage :
  DisplayObject.getStage example_child =
  Some (DisplayObject.set_shadow (Some example_shadow)
          (DisplayObject.set_alpha 0.5%float (Stage.base example_stage))).
Proof. reflexivity. Qed.
End Conversion.

(** ** Coordinate conversion *)

Section ConversionClaims.
Context {G : Type} {geometry : Matrix2D.Geometry G}.

(** C1 (the code does otherwise).  The claim: a node whose parent chain
    does not end at a stage gets null from [getConcatenatedMatrix], and so
    from [localToGlobal] and [globalToLocal] at every point.  Evaluated on
    [detached], a fresh [DisplayObject] with no parent, for which
    [getStage] does answer null: [getConcatenatedMatrix] returns the
    node's own transform prepended to the identity, [localToGlobal]
    returns a point, and [globalToLocal] does not return null. *)
Theorem getConcatenatedMatrix_detached (px py : number) :
  let own := Matrix2D.g_prependTransform Matrix2D.g_identity
               0%float 0%float 1%float 1%float 0%float 0%float 0%float in
  DisplayObject.parent detached = None
  /\ DisplayObject.getStage detached = None
  /\ DisplayObject.getConcatenatedMatrix detached None =
       Some {| Matrix2D.geom := own;
               Matrix2D.alpha := 1%float;
               Matrix2D.shadow := None |}
  /\ DisplayObject.localToGlobal detached px py =
       (let g := Matrix2D.g_append own 1%float 0%float 0%float 1%float px py in
        Some (Point.new (Matrix2D.g_tx g) (Matrix2D.g_ty g)))
  /\ DisplayObject.globalToLocal detached px py <> Normal None.
Proof.
  cbv zeta. repeat split; try reflexivity.
  unfold DisplayObject.globalToLocal. simpl.
  unfold Matrix2D.invert. simpl.
  destruct (Matrix2D.g_invert _); discriminate.
Qed.


(** C8.  The matrix [getConcatenatedMatrix] returns carries the product
    of the alpha values of the node and its ancestors, multiplied in
    walking order from 1, and the first shadow set along the walk from
    the node toward the root (null if there is none); this holds whether
    or not the caller supplies a matrix to reuse. *)
Theorem getConcatenatedMatrix_alpha_shadow
    (N : DisplayObject.t) (mtx : option (Matrix2D.t G)) :
  exists m,
    DisplayObject.getConcatenatedMatrix N mtx = Some m
    /\ Matrix2D.alpha m = alpha_product (chain N)
    /\ Matrix2D.shadow m = first_shadow (chain N).
Proof.
  unfold DisplayObject.getConcatenatedMatrix.
  set (start := match mtx with
                | Some m => Matrix2D.identity m
                | None => Matrix2D.new
                end).
  assert (Ha : Matrix2D.alpha start = 1%float) by (destruct mtx; reflexivity).
  assert (Hs : Matrix2D.shadow start = None) by (destruct mtx; reflexivity).
  pose proof (getConcatenatedMatrix_loop_accumulators N start) as Hloop.
  cbv zeta in Hloop. rewrite Ha, Hs in Hloop.
  destruct (DisplayObject.getConcatenatedMatrix_loop N start) as [target m].
  rewrite not_target_instanceof_Stage.
  exists m. split; [reflexivity|]. exact Hloop.
Qed.
End ConversionClaims.

(** ** Visibility *)

(** C9.  [isVisible] answers true exactly when [visible] is true,
    [alpha > 0], [scaleX != 0] and [scaleY != 0]; in particular it answers
    false as soon as [visible] is false, [alpha <= 0], [scaleX == 0] or
    [scaleY == 0]. *)
Theorem isVisible_iff (N : DisplayObject.t) :
  (DisplayObject.isVisible N = true <->
     DisplayObject.visible N = true
     /\ PrimFloat.ltb 0%float (DisplayObject.alpha N) = true
     /\ PrimFloat.eqb (DisplayObject.scaleX N) 0%float = false
     /\ PrimFloat.eqb (DisplayObject.scaleY N) 0%float = false)
  /\ (DisplayObject.visible N = false
      \/ PrimFloat.leb (DisplayObject.alpha N) 0%float = true
      \/ PrimFloat.eqb (DisplayObject.scaleX N) 0%float = true
      \/ PrimFloat.eqb (DisplayObject.scaleY N) 0%float = true ->
      DisplayObject.isVisible N = false).
Proof.
  unfold DisplayObject.isVisible. split.
  - rewrite !andb_true_iff, !negb_true_iff. tauto.
  - intros [H | [H | [H | H]]].
    + rewrite H. reflexivity.
    + rewrite (float_le_0_not_gt_0 _ H). apply andb_false_iff. left.
      apply andb_false_iff. left. apply andb_false_r.
    + rewrite H. simpl. apply andb_false_iff. left. apply andb_false_r.
    + rewrite H. simpl. apply andb_false_r.
Qed.

Lemma isVisible_iff_witness :
  PrimFloat.leb (DisplayObject.alpha (DisplayObject.set_alpha 0%float detached)) 0%float = true
  /\ DisplayObject.isVisible (DisplayObject.set_alpha 0%float detached) = false.
Proof.
  split.
  - reflexivity.
  - apply (proj2 (isVisible_iff (DisplayObject.set_alpha 0%float detached))).
    right; left. reflexivity.
Defined.


(** ** The monad *)

(** Running a method body on a world: unfold the sequencing and the
    elementary steps, then project the fields of the resulting world. *)
Ltac run :=
  unfold bind, ret, throw, log, read, modify, getContext,
         set_trace, set_canvases, set_uid_nextID;
  cbn [fst snd canvases uid_nextID trace].

Lemma world_eta (w : World) :
  {| canvases := canvases w; uid_nextID := uid_nextID w; trace := trace w |} = w.
Proof. destruct w; reflexivity. Qed.

Lemma set_cacheCanvas_same (o : DisplayObject.t) (c : handle) :
  DisplayObject.cacheCanvas o = Some c ->
  DisplayObject.set_cacheCanvas (Some c) o = o.
Proof. destruct o; simpl; intros ->; reflexivity. Qed.

(** ** Drawing from the cache *)

Section CacheClaims.
Context {platform : Platform}.

Lemma ctx_drawImage_accepted (ctx image : handle) (dx dy : number)
    (w : World) (source : Canvas.t) :
  canvases w !! image = Some source ->
  empty source = false ->
  ctx_drawImage ctx image dx dy w =
  (Normal tt,
   {| canvases :=
        alter (fun cv => Canvas.set_pixels (paint_drawImage cv source dx dy) cv)
              ctx (canvases w);
      uid_nextID := uid_nextID w;
      trace := trace w ++ [EvCtx ctx (drawImage image dx dy)] |}).
Proof.
  intros Hsource Hempty. unfold ctx_drawImage. run.
  rewrite Hsource. cbn [fst snd]. rewrite Hempty. reflexivity.
Qed.

Lemma ctx_drawImage_rejected (ctx image : handle) (dx dy : number)
    (w : World) (source : Canvas.t) :
  canvases w !! image = Some source ->
  empty source = true ->
  fst (ctx_drawImage ctx image dx dy w) = Throw InvalidStateError.
Proof.
  intros Hsource Hempty. unfold ctx_drawImage. run.
  rewrite Hsource. cbn [fst snd]. rewrite Hempty. reflexivity.
Qed.

(** An empty cache canvas stops [draw] at [drawImage]. *)
Lemma draw_empty_cache (N : DisplayObject.t) (ctx cc : handle) (w : World)
    (source : Canvas.t) :
  DisplayObject.cacheCanvas N = Some cc ->
  canvases w !! cc = Some source ->
  empty source = true ->
  fst (DisplayObject.draw N ctx false w) = Throw InvalidStateError.
Proof.
  intros Hcc Hsource Hempty. unfold DisplayObject.draw. rewrite Hcc.
  set (moved := fun cv : Canvas.t =>
                  Canvas.set_transform
                    (Canvas.transform cv ++
                     [TranslateBy (DisplayObject._cacheOffsetX N)
                                  (DisplayObject._cacheOffsetY N)]) cv).
  assert (Hmoved : exists source',
             alter moved ctx (canvases w) !! cc = Some source'
             /\ empty source' = true).
  { rewrite lookup_alter. destruct (decide (ctx = cc)) as [-> | _].
    - rewrite Hsource. exists (moved source). split; [reflexivity | exact Hempty].
    - exists source. split; assumption. }
  destruct Hmoved as (source' & Hsource' & Hempty').
  unfold bind at 1. unfold ctx_translate at 1. run. fold moved.
  pose proof (ctx_drawImage_rejected ctx cc 0%float 0%float
                {| canvases := alter moved ctx (canvases w);
                   uid_nextID := uid_nextID w;
                   trace := trace w ++
                            [EvCtx ctx (translate (DisplayObject._cacheOffsetX N)
                                                  (DisplayObject._cacheOffsetY N))] |}
                source' Hsource' Hempty') as Hthrow.
  destruct (ctx_drawImage ctx cc 0%float 0%float _) as [r w1].
  cbn [fst] in Hthrow. rewrite Hthrow. reflexivity.
Qed.

(** C4, amended.  [draw] returns false and does nothing when
    [ignoreCache] is true or there is no cache canvas.  With
    [ignoreCache] false and a cache canvas that has pixels it returns true
    after exactly three calls on [ctx]: a translation by the stored offset,
    [drawImage] of the cache canvas at (0,0), and a translation by the
    negated offset.  The canvas of [ctx] then holds what [drawImage] of the
    cache canvas paints on it under the translated context (the cache
    canvas being [ctx]'s own canvas, translated, when the two are the
    same), its transform has grown by the two translations, and no other
    canvas has changed.  With a cache canvas that has a zero width or
    height, [draw] does not return: it ends in the [InvalidStateError] of
    [drawImage]. *)
Theorem draw_from_cache (N : DisplayObject.t) (ctx : handle) (ignoreCache : bool) (w : World) :
  (ignoreCache = true \/ DisplayObject.cacheCanvas N = None ->
   DisplayObject.draw N ctx ignoreCache w = (Normal false, w))
  /\ (forall cc source,
        ignoreCache = false ->
        DisplayObject.cacheCanvas N = Some cc ->
        canvases w !! cc = Some source ->
        empty source = false ->
        exists w',
          DisplayObject.draw N ctx ignoreCache w = (Normal true, w')
          /\ trace w' =
               trace w ++
               [EvCtx ctx (translate (DisplayObject._cacheOffsetX N)
                                     (DisplayObject._cacheOffsetY N));
                EvCtx ctx (drawImage cc 0%float 0%float);
                EvCtx ctx (translate (- DisplayObject._cacheOffsetX N)%float
                                     (- DisplayObject._cacheOffsetY N)%float)]
          /\ uid_nextID w' = uid_nextID w
          /\ (forall cv, canvases w !! ctx = Some cv ->
               let moved :=
                 Canvas.set_transform
                   (Canvas.transform cv ++
                    [TranslateBy (DisplayObject._cacheOffsetX N)
                                 (DisplayObject._cacheOffsetY N)]) cv in
               let image := if decide (ctx = cc) then moved else source in
               canvases w' !! ctx =
               Some (Canvas.set_transform
                       (Canvas.transform cv ++
                        [TranslateBy (DisplayObject._cacheOffsetX N)
                                     (DisplayObject._cacheOffsetY N);
                         TranslateBy (- DisplayObject._cacheOffsetX N)%float
                                     (- DisplayObject._cacheOffsetY N)%float])
                       (Canvas.set_pixels
                          (paint_drawImage moved image 0%float 0%float) moved)))
          /\ (forall c, c <> ctx -> canvases w' !! c = canvases w !! c))
  /\ (forall cc source,
        ignoreCache = false ->
        DisplayObject.cacheCanvas N = Some cc ->
        canvases w !! cc = Some source ->
        empty source = true ->
        fst (DisplayObject.draw N ctx ignoreCache w) = Throw InvalidStateError).
Proof.
  split; [|split].
  - unfold DisplayObject.draw. intros [-> | ->].
    + destruct (DisplayObject.cacheCanvas N); reflexivity.
    + reflexivity.
  - intros cc source -> Hcc Hsource Hempty.
    unfold DisplayObject.draw. rewrite Hcc.
    set (ox := DisplayObject._cacheOffsetX N).
    set (oy := DisplayObject._cacheOffsetY N).
    set (moved := fun cv : Canvas.t =>
                    Canvas.set_transform (Canvas.transform cv ++ [TranslateBy ox oy]) cv).
    set (image := if decide (ctx = cc) then moved source else source).
    assert (Himage : alter moved ctx (canvases w) !! cc = Some image).
    { rewrite lookup_alter. unfold image.
      destruct (decide (ctx = cc)) as [-> | _].
      - rewrite Hsource. reflexivity.
      - exact Hsource. }
    assert (Hempty' : empty image = false).
    { unfold image. destruct (decide (ctx = cc)); exact Hempty. }
    unfold bind at 1. unfold ctx_translate at 1. run. fold moved.
    rewrite (ctx_drawImage_accepted ctx cc 0%float 0%float
               {| canvases := alter moved ctx (canvases w);
                  uid_nextID := uid_nextID w;
                  trace := trace w ++ [EvCtx ctx (translate ox oy)] |}
               image Himage Hempty').
    unfold ctx_translate. run.
    eexists. split; [reflexivity|]. cbn [trace uid_nextID canvases].
    split; [rewrite <- !app_assoc; reflexivity|].
    split; [reflexivity|]. split.
    + intros cv Hcv. cbv zeta. fold (moved cv).
      rewrite !lookup_alter_eq, Hcv.
      cbn [fmap option_fmap option_map].
      assert (Hsame : image = if decide (ctx = cc) then moved cv else source).
      { unfold image. destruct (decide (ctx = cc)) as [-> | _]; [|reflexivity].
        rewrite Hsource in Hcv. injection Hcv as ->. reflexivity. }
      rewrite <- Hsame. unfold moved, Canvas.set_transform, Canvas.set_pixels.
      cbn. rewrite <- app_assoc. reflexivity.
    + intros c Hne. rewrite !lookup_alter_ne by congruence. reflexivity.
  - intros cc source -> Hcc Hsource Hempty.
    exact (draw_empty_cache N ctx cc w source Hcc Hsource Hempty).
Qed.

(** After [uncache] the cache path is closed, and the offsets [draw]
    reads are the ones the last [cache] stored. *)
Lemma uncache_closes_cache_path (N : DisplayObject.t) (ctx : handle) (w : World) :
  DisplayObject.draw (DisplayObject.uncache N) ctx false w = (Normal false, w)
  /\ DisplayObject._cacheOffsetX (DisplayObject.uncache N) = DisplayObject._cacheOffsetX N
  /\ DisplayObject._cacheOffsetY (DisplayObject.uncache N) = DisplayObject._cacheOffsetY N.
Proof. repeat split. Qed.

(** The real draw, asked for with [ignoreCache] set: one call, whatever
    the class of the receiver, and nothing from the cache path. *)
Lemma call_draw_ignoreCache (N : DisplayObject.t) (ctx : handle) (w : World) :
  DisplayObject.call_draw N ctx true w =
  (Normal tt, set_trace (trace w ++ [EvCall (DisplayObject.id N) (m_draw ctx true)]) w).
Proof.
  unfold DisplayObject.call_draw, bind, log.
  destruct (DisplayObject.cls N); try reflexivity.
  unfold DisplayObject.draw, bind.
  destruct (DisplayObject.cacheCanvas N); reflexivity.
Qed.

End CacheClaims.

Lemma draw_from_cache_witness :
  exists w' cv',
    DisplayObject.draw (platform := example_blitter)
      cached 2%positive false example_screen_world
    = (Normal true, w')
    /\ trace w' =
         [EvCtx 2%positive (translate 10%float 20%float);
          EvCtx 2%positive (drawImage 1%positive 0%float 0%float);
          EvCtx 2%positive (translate (-10)%float (-20)%float)]
    /\ canvases example_screen_world !! 2%positive = Some (Canvas.blank 4 3)
    /\ canvases w' !! 2%positive = Some cv'
    /\ Canvas.pixels cv' 0 0 = transparent
    /\ Canvas.pixels cv' 1 0 = RGBA 255 0 0 255.
Proof.
  destruct (proj1 (proj2 (draw_from_cache (platform := example_blitter)
                            cached 2%positive false example_screen_world))
              1%positive example_canvas eq_refl eq_refl eq_refl eq_refl)
    as (w' & Hrun & Htrace & _ & Hcv & _).
  exists w'. eexists. split; [exact Hrun|]. split; [exact Htrace|].
  split; [reflexivity|].
  split; [exact (Hcv (Canvas.blank 4 3) eq_refl)|].
  split; reflexivity.
Defined.

(** C4 fails as stated: [cache] with a zero width gives the node
    a cache canvas without pixels, and [draw] on that node, its cache
    canvas set and [ignoreCache] false, does not return true: it ends in
    [InvalidStateError]. *)
Lemma draw_after_empty_cache :
  exists N' w',
    DisplayObject.cache (platform := example_platform)
      detached 0%float 0%float 0 10 example_world = (Normal N', w')
    /\ DisplayObject.cacheCanvas N' = Some 2%positive
    /\ fst (DisplayObject.draw (platform := example_platform) N' 1%positive false w')
       = Throw InvalidStateError
    /\ fst (DisplayObject.draw (platform := example_platform) N' 1%positive false w')
       <> Normal true.
Proof.
  eexists. eexists. split; [reflexivity|].
  split; [reflexivity|]. split; [reflexivity|]. discriminate.
Defined.

(** ** Cloning *)



(** ** Pointer events *)

(** C3 fails as stated: on [example_stage], whose active object has an
    [onMouseDown] callback, a press invokes the stage's own callback and
    nothing else. *)
Lemma press_not_forwarded_to_active :
  snd (Stage._handleMouseDown example_stage example_event example_world) =
    set_trace
      [EvCallback OfStage "stageDown"%string
         (MouseEvent.new "onMouseDown" (Some 3%float) (Some 2%float))]
      example_world
  /\ ~ press_is_forwarded example_stage example_event example_world.
Proof.
  split; [reflexivity|].
  intros [_ Hactive].
  specialize (Hactive _ _ eq_refl eq_refl).
  simpl in Hactive. destruct Hactive as [Habs | []]. discriminate Habs.
Qed.

(** C3, amended.  A press invokes the stage's [onMouseDown] callback, if
    set, on the event value [("onMouseDown", mouseX, mouseY)], and does
    nothing else: the active object is addressed on release only.  A
    release builds the event value [("onMouseUp", mouseX, mouseY)] and
    invokes on it the stage's [onMouseUp], if set, and then the active
    object's [onMouseUp], if there is an active object that has one. *)
Theorem pointer_forwarding (S : Stage.t) (e : DomEvent.t) (w : World) :
  (let evt := MouseEvent.new "onMouseDown" (Stage.mouseX S) (Stage.mouseY S) in
   Stage._handleMouseDown S e w =
   (Normal tt, set_trace (trace w ++ root_callbacks (Stage.onMouseDown S) evt) w))
  /\ (let evt := MouseEvent.new "onMouseUp" (Stage.mouseX S) (Stage.mouseY S) in
      Stage._handleMouseUp S e w =
      (Normal tt,
       set_trace
         (trace w ++ root_callbacks (Stage.onMouseUp S) evt
                  ++ active_callbacks (Stage._activeMouseEvent S)
                       ActiveMouseEvent.onMouseUp evt) w)).
Proof.
  split; cbv zeta.
  - unfold Stage._handleMouseDown, root_callbacks.
    destruct (Stage.onMouseDown S); run.
    + reflexivity.
    + rewrite app_nil_r, world_eta. reflexivity.
  - unfold Stage._handleMouseUp, Stage.invoke, root_callbacks, active_callbacks.
    destruct (Stage.onMouseUp S), (Stage._activeMouseEvent S) as [a|];
      try destruct (ActiveMouseEvent.onMouseUp a); run;
      rewrite ?app_nil_r, ?app_nil_l, <- ?app_assoc, ?world_eta; reflexivity.
Qed.

(** ** The render cycle *)

Section StageClaims.
Context {platform : Platform}.

(** Writing back, at the origin, the copy of a whole bitmap restores every
    pixel of it, whatever was painted in between on a canvas of the same
    size. *)
Lemma paste_copy (cv painted : Canvas.t) (px py : Z) :
  Canvas.width painted = Canvas.width cv ->
  Canvas.height painted = Canvas.height cv ->
  Canvas.in_bounds cv px py = true ->
  paste_rect painted
    (copy_rect cv 0 0 (Canvas.width cv) (Canvas.height cv)) 0 0 px py =
  Canvas.pixels cv px py.
Proof.
  intros Hw Hh Hin.
  unfold paste_rect, copy_rect, Canvas.in_bounds in *. rewrite Hw, Hh.
  cbn [ImageData.width ImageData.height ImageData.data].
  apply andb_true_iff in Hin as [Hin Hy2].
  apply andb_true_iff in Hin as [Hin Hy1].
  apply andb_true_iff in Hin as [Hx1 Hx2].
  apply Z.leb_le in Hx1, Hy1. apply Z.ltb_lt in Hx2, Hy2.
  rewrite !Z.add_0_l, !Z.sub_0_r.
  rewrite (Z.min_l 0 (Canvas.width cv)) by lia.
  rewrite (Z.min_l 0 (Canvas.height cv)) by lia.
  rewrite (Z.abs_eq (Canvas.width cv)) by lia.
  rewrite (Z.abs_eq (Canvas.height cv)) by lia.
  rewrite !Z.add_0_l.
  repeat match goal with
         | |- context [?a <=? ?b] =>
             rewrite (proj2 (Z.leb_le a b)) by lia
         | |- context [?a <? ?b] =>
             rewrite (proj2 (Z.ltb_lt a b)) by lia
         end.
  reflexivity.
Qed.

(** Without a background colour the export is one [toDataURL]. *)
Lemma toImage_plain (S : Stage.t) (mimeType backgroundColor : option string)
    (w : World) (c : handle) (cv : Canvas.t) :
  Stage.canvas S = Some c ->
  canvases w !! c = Some cv ->
  truthy backgroundColor = false ->
  exists url events,
    Stage.toImage S mimeType backgroundColor w =
    (Normal url, set_trace (trace w ++ events) w).
Proof.
  intros Hc Hcv Hbg. unfold Stage.toImage. rewrite Hc.
  unfold get_width, get_height, toDataURL.
  destruct backgroundColor as [[|a color]|]; try discriminate Hbg;
    run; rewrite Hcv; cbn [fst snd]; rewrite Hcv; cbn [fst snd truthy canvases];
    rewrite Hcv; eexists; eexists; reflexivity.
Qed.


Lemma clear_bound (S : Stage.t) (w : World) (c : handle) (cv : Canvas.t) :
  Stage.canvas S = Some c ->
  canvases w !! c = Some cv ->
  Stage.clear S w =
  (Normal tt,
   {| canvases :=
        alter (fun cv0 =>
                 Canvas.set_pixels
                   (paint_clearRect cv0 0 0 (Canvas.width cv) (Canvas.height cv)) cv0)
              c (canvases w);
      uid_nextID := uid_nextID w;
      trace := trace w ++
               [EvCtx c (clearRect 0 0 (Canvas.width cv) (Canvas.height cv))] |}).
Proof.
  intros Hc Hcv. unfold Stage.clear, get_width, get_height, ctx_clearRect.
  rewrite Hc. run. rewrite Hcv. cbn [fst snd]. rewrite Hcv. reflexivity.
Qed.

(** With a background colour and a canvas that is not empty, the export
    returns, and leaves on the canvas the copy taken before the fill pasted
    back over whatever the fill and the clear painted, under the
    compositing mode read before the fill. *)
Lemma toImage_background (S : Stage.t) (mimeType backgroundColor : option string)
    (w : World) (c : handle) (cv : Canvas.t) :
  Stage.canvas S = Some c ->
  canvases w !! c = Some cv ->
  truthy backgroundColor = true ->
  (Canvas.width cv =? 0) || (Canvas.height cv =? 0) = false ->
  exists url w' painted,
    Stage.toImage S mimeType backgroundColor w = (Normal url, w')
    /\ Canvas.width painted = Canvas.width cv
    /\ Canvas.height painted = Canvas.height cv
    /\ canvases w' !! c =
         Some (Canvas.set_globalCompositeOperation
                 (Canvas.globalCompositeOperation cv)
                 (Canvas.set_pixels
                    (paste_rect painted
                       (copy_rect cv 0 0 (Canvas.width cv) (Canvas.height cv)) 0 0)
                    painted)).
Proof.
  intros Hc Hcv Hbg Hsize. unfold Stage.toImage. rewrite Hc.
  destruct backgroundColor as [[|a color]|]; try discriminate Hbg.
  unfold get_width, get_height, toDataURL, ctx_getImageData,
    ctx_get_globalCompositeOperation, ctx_set_globalCompositeOperation,
    ctx_set_fillStyle, ctx_fillRect, ctx_clearRect, ctx_putImageData.
  run. rewrite Hcv. cbn [fst snd]. rewrite Hcv. cbn [fst snd truthy].
  rewrite Hsize. cbn [canvases]. rewrite Hcv. cbn [fst snd canvases].
  rewrite Hcv. cbn [fst snd canvases].
  rewrite !lookup_alter_eq, Hcv. cbn [fmap option_fmap option_map].
  eexists. eexists. eexists.
  split; [reflexivity|]. cbn [canvases].
  rewrite !lookup_alter_eq, Hcv. cbn [fmap option_fmap option_map].
  split; [|split]; [| |reflexivity]; reflexivity.
Qed.

(** With a background colour and an empty canvas, [getImageData] throws. *)
Lemma toImage_empty (S : Stage.t) (mimeType backgroundColor : option string)
    (w : World) (c : handle) (cv : Canvas.t) :
  Stage.canvas S = Some c ->
  canvases w !! c = Some cv ->
  truthy backgroundColor = true ->
  (Canvas.width cv =? 0) || (Canvas.height cv =? 0) = true ->
  fst (Stage.toImage S mimeType backgroundColor w) = Throw IndexSizeError.
Proof.
  intros Hc Hcv Hbg Hsize. unfold Stage.toImage. rewrite Hc.
  destruct backgroundColor as [[|a color]|]; try discriminate Hbg.
  unfold get_width, get_height, ctx_getImageData.
  run. rewrite Hcv. cbn [fst snd]. rewrite Hcv. cbn [fst snd truthy].
  rewrite Hsize. reflexivity.
Qed.

(** C6.  On a stage bound to a canvas, whenever [toImage] returns, the
    canvas has its size, every pixel of its bitmap and the context's
    [globalCompositeOperation] as they were before the call, with or
    without a background colour.  It does return when no background colour
    is given or the canvas is not empty. *)
Theorem toImage_restores_surface (S : Stage.t) (mimeType backgroundColor : option string)
    (w : World) (c : handle) (cv : Canvas.t) :
  Stage.canvas S = Some c ->
  canvases w !! c = Some cv ->
  (forall url w',
     Stage.toImage S mimeType backgroundColor w = (Normal url, w') ->
     exists cv',
       canvases w' !! c = Some cv'
       /\ Canvas.width cv' = Canvas.width cv
       /\ Canvas.height cv' = Canvas.height cv
       /\ (forall px py,
             Canvas.in_bounds cv px py = true ->
             Canvas.pixels cv' px py = Canvas.pixels cv px py)
       /\ Canvas.globalCompositeOperation cv' = Canvas.globalCompositeOperation cv)
  /\ (truthy backgroundColor = false
      \/ (0 < Canvas.width cv /\ 0 < Canvas.height cv) ->
      exists url w', Stage.toImage S mimeType backgroundColor w = (Normal url, w')).
Proof.
  intros Hc Hcv.
  destruct (truthy backgroundColor) eqn:Hbg.
  - destruct ((Canvas.width cv =? 0) || (Canvas.height cv =? 0)) eqn:Hsize.
    + pose proof (toImage_empty S mimeType backgroundColor w c cv Hc Hcv Hbg Hsize)
        as Hthrow.
      split.
      * intros url w' Hrun. rewrite Hrun in Hthrow. discriminate Hthrow.
      * intros [Habs | [Hw Hh]]; [discriminate Habs|].
        apply orb_true_iff in Hsize as [Hz | Hz]; apply Z.eqb_eq in Hz; lia.
    + destruct (toImage_background S mimeType backgroundColor w c cv Hc Hcv Hbg Hsize)
        as (url & w' & painted & Hrun & Hw & Hh & Hlookup).
      split; [|eauto].
      intros url0 w0 Hrun0. rewrite Hrun in Hrun0. injection Hrun0 as <- <-.
      eexists. split; [exact Hlookup|]. cbn.
      repeat split; try assumption.
      intros px py Hin. apply paste_copy; assumption.
  - destruct (toImage_plain S mimeType backgroundColor w c cv Hc Hcv Hbg)
      as (url & events & Hrun).
    split; [|eauto].
    intros url0 w0 Hrun0. rewrite Hrun in Hrun0. injection Hrun0 as <- <-.
    exists cv. cbn. auto.
Qed.

(** C7.  Without a canvas, [update] and [clear] return at once and leave
    the world as it is.  With a canvas, [clear] is one [clearRect] over the
    whole of it: the bitmap becomes what [clearRect] over the full width
    and height makes of it, and nothing else changes.  [update] first does
    that [clear] exactly when [autoClear] is true, and then, on the canvas
    so cleared or left alone, calls [updateContext(ctx)], [draw(ctx)] and
    [revertContext()], in this order.  [autoClear] is true on the
    prototype. *)
Theorem update_contract (S : Stage.t) (w : World) :
  (Stage.canvas S = None ->
   Stage.update S w = (Normal tt, w) /\ Stage.clear S w = (Normal tt, w))
  /\ (forall c cv,
        Stage.canvas S = Some c ->
        canvases w !! c = Some cv ->
        let whole := EvCtx c (clearRect 0 0 (Canvas.width cv) (Canvas.height cv)) in
        let receiver := DisplayObject.id (Stage.base S) in
        let cleared :=
          Canvas.set_pixels
            (paint_clearRect cv 0 0 (Canvas.width cv) (Canvas.height cv)) cv in
        (exists w1,
           Stage.clear S w = (Normal tt, w1)
           /\ trace w1 = trace w ++ [whole]
           /\ canvases w1 !! c = Some cleared
           /\ (forall c', c' <> c -> canvases w1 !! c' = canvases w !! c')
           /\ uid_nextID w1 = uid_nextID w)
        /\ (exists w0 w',
              (if Stage.autoClear S then Stage.clear S w else (Normal tt, w))
              = (Normal tt, w0)
              /\ canvases w0 !! c = Some (if Stage.autoClear S then cleared else cv)
              /\ Stage.update S w =
                   (let* _ := Stage.call S (m_updateContext c) in
                    let* _ := Stage.call S (m_draw c false) in
                    Stage.call S m_revertContext) w0
              /\ Stage.update S w = (Normal tt, w')
              /\ trace w' =
                   trace w ++
                   (if Stage.autoClear S then [whole] else []) ++
                   [EvCall receiver (m_updateContext c);
                    EvCall receiver (m_draw c false);
                    EvCall receiver m_revertContext]))
  /\ (forall container, Stage.autoClear (Stage.prototype container) = true).
Proof.
  split; [|split].
  - intros Hc. unfold Stage.update, Stage.clear. rewrite Hc. split; reflexivity.
  - intros c cv Hc Hcv whole receiver cleared. split.
    + rewrite (clear_bound S w c cv Hc Hcv). eexists. split; [reflexivity|].
      cbn [trace canvases uid_nextID]. split; [reflexivity|]. split.
      * rewrite lookup_alter_eq, Hcv. reflexivity.
      * split; [|reflexivity].
        intros c' Hne. rewrite lookup_alter_ne by congruence. reflexivity.
    + unfold Stage.update. rewrite Hc.
      destruct (Stage.autoClear S).
      * rewrite (clear_bound S w c cv Hc Hcv).
        eexists. eexists. split; [reflexivity|]. cbn [canvases].
        split; [rewrite lookup_alter_eq, Hcv; reflexivity|].
        split.
        { unfold bind at 1. rewrite (clear_bound S w c cv Hc Hcv). reflexivity. }
        unfold bind at 1. rewrite (clear_bound S w c cv Hc Hcv).
        unfold Stage.call. run.
        split; [reflexivity|]. cbn [trace].
        rewrite <- !app_assoc. reflexivity.
      * eexists. eexists. split; [reflexivity|].
        split; [exact Hcv|].
        split; [reflexivity|].
        unfold Stage.call. run.
        split; [reflexivity|]. cbn [trace].
        rewrite <- !app_assoc. reflexivity.
  - reflexivity.
Qed.
End StageClaims.

Lemma update_contract_witness :
  exists w0 cv0 w',
    Stage.clear (platform := example_platform) example_stage example_world
    = (Normal tt, w0)
    /\ Canvas.pixels example_canvas 1 0 = RGBA 255 0 0 255
    /\ canvases w0 !! 1%positive = Some cv0
    /\ Canvas.pixels cv0 1 0 = transparent
    /\ Stage.update (platform := example_platform) example_stage example_world
       = (Normal tt, w')
    /\ trace w' =
         [EvCtx 1%positive (clearRect 0 0 4 3);
          EvCall 0 (m_updateContext 1%positive);
          EvCall 0 (m_draw 1%positive false);
          EvCall 0 m_revertContext].
Proof.
  destruct (proj1 (proj2 (update_contract (platform := example_platform)
                            example_stage example_world))
              1%positive example_canvas eq_refl eq_refl)
    as [_ (w0 & w' & Hclear & Hcv0 & _ & Hrun & Htrace)].
  exists w0. eexists. exists w'.
  split; [exact Hclear|]. split; [reflexivity|].
  split; [exact Hcv0|]. split; [reflexivity|].
  split; [exact Hrun | exact Htrace].
Defined.

(** On the example canvas, whose top left pixel is transparent, the image
    exported over a background has that pixel painted. *)
Example example_export_over_background :
  fst (Stage.toImage (platform := example_platform)
         example_stage None (Some "white"%string) example_world)
  = Normal "image/png;painted"%string
  /\ fst (Stage.toImage (platform := example_platform)
            example_stage (Some "image/jpeg"%string) None example_world)
     = Normal "image/jpeg;clear"%string.
Proof. split; reflexivity. Qed.

Lemma toImage_restores_surface_witness :
  exists url w' cv',
    Stage.toImage (platform := example_platform)
      example_stage None (Some "white"%string) example_world = (Normal url, w')
    /\ canvases w' !! 1%positive = Some cv'
    /\ Canvas.pixels cv' 0 0 = transparent
    /\ Canvas.pixels cv' 1 0 = RGBA 255 0 0 255
    /\ Canvas.globalCompositeOperation cv' = "source-over"%string.
Proof.
  destruct (toImage_restores_surface (platform := example_platform)
              example_stage None (Some "white"%string) example_world
              1%positive example_canvas eq_refl eq_refl)
    as [Hafter Hreturns].
  destruct Hreturns as (url & w' & Hrun).
  - right. simpl. lia.
  - destruct (Hafter url w' Hrun) as (cv' & Hcv' & _ & _ & Hpixels & Hmode).
    exists url, w', cv'.
    split; [exact Hrun|]. split; [exact Hcv'|]. split; [|split].
    + apply (Hpixels 0 0). reflexivity.
    + apply (Hpixels 1 0). reflexivity.
    + exact Hmode.
Defined.

(** * Further properties *)

(** ** The stage of a node *)

Lemma getStage_loop_unfold (o : DisplayObject.t) :
  DisplayObject.getStage_loop o =
  match DisplayObject.parent o with
  | Some p => DisplayObject.getStage_loop p
  | None => o
  end.
Proof. destruct o; reflexivity. Qed.

Lemma last_cons_default {A} (a : A) (l : list A) (d d' : A) :
  List.last (a :: l) d = List.last (a :: l) d'.
Proof.
  revert a. induction l as [|b l IH]; intros a; [reflexivity|].
  change (List.last (b :: l) d = List.last (b :: l) d'). apply IH.
Qed.

Lemma getStage_loop_root (o : DisplayObject.t) :
  DisplayObject.getStage_loop o = root o.
Proof.
  unfold root. induction o as [o IH] using parent_ind.
  rewrite getStage_loop_unfold, chain_unfold.
  destruct (DisplayObject.parent o) as [p|] eqn:Hp; [|reflexivity].
  rewrite (IH p eq_refl). rewrite (chain_unfold p).
  symmetry. apply (last_cons_default p).
Qed.

Lemma root_parent (o : DisplayObject.t) :
  DisplayObject.parent (root o) = None /\ In (root o) (chain o).
Proof.
  rewrite <- getStage_loop_root.
  induction o as [o IH] using parent_ind.
  rewrite getStage_loop_unfold, chain_unfold.
  destruct (DisplayObject.parent o) as [p|] eqn:Hp.
  - destruct (IH p eq_refl) as [Hnone Hin]. split; [exact Hnone|].
    right. exact Hin.
  - split; [exact Hp | left; reflexivity].
Qed.

(** X1.  [getStage] answers the end of the parent chain when that node
    was made by [Stage], and null otherwise: the answer has no parent, a
    stage further down the chain is not it, and every node of a chain
    gets the answer of its parent. *)
Theorem getStage_root (N : DisplayObject.t) :
  DisplayObject.getStage N =
    (if DisplayObject.instanceof_Stage (DisplayObject.VObject (root N))
     then Some (root N) else None)
  /\ DisplayObject.parent (root N) = None
  /\ In (root N) (chain N)
  /\ (forall p, DisplayObject.parent N = Some p ->
       DisplayObject.getStage N = DisplayObject.getStage p).
Proof.
  split; [|split; [|split]].
  - unfold DisplayObject.getStage. rewrite getStage_loop_root.
    cbn [DisplayObject.instanceof_Stage].
    destruct (DisplayObject.cls (root N)); reflexivity.
  - apply root_parent.
  - apply root_parent.
  - intros p Hp. unfold DisplayObject.getStage.
    rewrite (getStage_loop_unfold N), Hp. reflexivity.
Qed.

Lemma getStage_root_witness :
  DisplayObject.getStage example_child = DisplayObject.getStage (root example_child)
  /\ DisplayObject.cls (root example_child) = DisplayObject.StageClass.
Proof.
  split.
  - apply (proj2 (proj2 (proj2 (getStage_root example_child)))). reflexivity.
  - reflexivity.
Defined.

(** ** The geometry of a conversion *)

Section ConversionGeometry.
Context {G : Type} {geometry : Matrix2D.Geometry G}.

Lemma getConcatenatedMatrix_loop_geometry (target : DisplayObject.t) :
  forall mtx : Matrix2D.t G,
    Matrix2D.geom (snd (DisplayObject.getConcatenatedMatrix_loop target mtx)) =
    prepend_transforms (chain target) (Matrix2D.geom mtx).
Proof.
  induction target as [target IH] using parent_ind. intros mtx.
  rewrite getConcatenatedMatrix_loop_unfold, chain_unfold. cbv zeta.
  set (mtx' := Matrix2D.set_shadow _ _).
  assert (Hg : Matrix2D.geom mtx' =
               Matrix2D.g_prependTransform (Matrix2D.geom mtx)
                 (DisplayObject.x target) (DisplayObject.y target)
                 (DisplayObject.scaleX target) (DisplayObject.scaleY target)
                 (DisplayObject.rotation target)
                 (DisplayObject.regX target) (DisplayObject.regY target))
    by reflexivity.
  clearbody mtx'.
  destruct (DisplayObject.parent target) as [p|] eqn:Hp.
  - rewrite (IH p eq_refl mtx'), Hg. reflexivity.
  - cbn [snd]. rewrite Hg. reflexivity.
Qed.

(** The matrix [getConcatenatedMatrix] returns, field by field. *)
Lemma getConcatenatedMatrix_value (N : DisplayObject.t) (mtx : option (Matrix2D.t G)) :
  DisplayObject.getConcatenatedMatrix N mtx =
  Some {| Matrix2D.geom := prepend_transforms (chain N) Matrix2D.g_identity;
          Matrix2D.alpha := alpha_product (chain N);
          Matrix2D.shadow := first_shadow (chain N) |}.
Proof.
  unfold DisplayObject.getConcatenatedMatrix.
  set (start := match mtx with
                | Some m => Matrix2D.identity m
                | None => Matrix2D.new
                end).
  assert (Hg : Matrix2D.geom start = Matrix2D.g_identity) by (destruct mtx; reflexivity).
  assert (Ha : Matrix2D.alpha start = 1%float) by (destruct mtx; reflexivity).
  assert (Hs : Matrix2D.shadow start = None) by (destruct mtx; reflexivity).
  pose proof (getConcatenatedMatrix_loop_geometry N start) as Hgeom.
  pose proof (getConcatenatedMatrix_loop_accumulators N start) as [Halpha Hshadow].
  rewrite Hg in Hgeom. rewrite Ha in Halpha. rewrite Hs in Hshadow.
  destruct (DisplayObject.getConcatenatedMatrix_loop N start) as [target m].
  rewrite not_target_instanceof_Stage.
  cbn [snd] in *. destruct m as [g a sh]. cbn in *. subst. reflexivity.
Qed.

(** X2.  The matrix of a node is the identity with the local transforms
    of the node and its ancestors prepended in walking order, the node's
    own first.  [localToGlobal] appends the translation by the point to it
    and reads the translation off; [globalToLocal] does the same to its
    inverse, and ends in the exception of [invert] when there is none.
    Neither looks at anything but the seven transform properties along
    the chain, and neither answers null. *)
Theorem conversion_geometry (N : DisplayObject.t) (mtx : option (Matrix2D.t G))
    (px py : number) :
  let g := prepend_transforms (chain N) Matrix2D.g_identity in
  let at_point h :=
    Point.new
      (Matrix2D.g_tx (Matrix2D.g_append h 1%float 0%float 0%float 1%float px py))
      (Matrix2D.g_ty (Matrix2D.g_append h 1%float 0%float 0%float 1%float px py)) in
  (exists m, DisplayObject.getConcatenatedMatrix N mtx = Some m
             /\ Matrix2D.geom m = g)
  /\ DisplayObject.localToGlobal N px py = Some (at_point g)
  /\ DisplayObject.globalToLocal N px py =
       match Matrix2D.g_invert g with
       | Some inverse => Normal (Some (at_point inverse))
       | None => Throw SingularMatrixError
       end.
Proof.
  cbv zeta. split; [|split].
  - rewrite getConcatenatedMatrix_value. eexists. split; reflexivity.
  - unfold DisplayObject.localToGlobal. rewrite getConcatenatedMatrix_value.
    reflexivity.
  - unfold DisplayObject.globalToLocal. rewrite getConcatenatedMatrix_value.
    unfold Matrix2D.invert. cbn [Matrix2D.geom].
    destruct (Matrix2D.g_invert _); reflexivity.
Qed.
End ConversionGeometry.

(** ** The cache, from [cache] to [draw] to [uncache] *)

Section CacheLifecycle.
Context {platform : Platform}.

(** What [cache] returns and the world it leaves, in full. *)
Lemma cache_runs (N : DisplayObject.t) (x y : number) (width height : Z) (w : World) :
  let c := match DisplayObject.cacheCanvas N with
           | Some c => c
           | None => fresh (dom (canvases w))
           end in
  let document := match DisplayObject.cacheCanvas N with
                  | Some _ => canvases w
                  | None => <[c := Canvas.blank 300 150]> (canvases w)
                  end in
  let created := match DisplayObject.cacheCanvas N with
                 | Some _ => []
                 | None => [EvCreateElement c]
                 end in
  DisplayObject.cache N x y width height w =
  (Normal (DisplayObject.set__cacheOffsetY y
             (DisplayObject.set__cacheOffsetX x
                (DisplayObject.set_cacheCanvas (Some c) N))),
   {| canvases :=
        alter (fun cv =>
                 Canvas.set_transform
                   (Canvas.transform cv ++ [TranslateBy (- x)%float (- y)%float]) cv) c
          (alter (fun cv => Canvas.blank (Canvas.width cv) (dimension 150 height)) c
             (alter (fun cv => Canvas.blank (dimension 300 width) (Canvas.height cv)) c
                document));
      uid_nextID := uid_nextID w;
      trace := trace w ++ created ++
               [EvSetWidth c width; EvSetHeight c height;
                EvCtx c (translate (- x)%float (- y)%float);
                EvCall (DisplayObject.id N) (m_draw c true)] |}).
Proof.
  cbv zeta. unfold DisplayObject.cache.
  destruct (DisplayObject.cacheCanvas N) as [c|] eqn:Hc.
  - unfold bind at 1. unfold ret at 1.
    unfold bind, set_width, set_height, ctx_translate, log, modify, getContext.
    simpl. rewrite call_draw_ignoreCache. run.
    rewrite (set_cacheCanvas_same N c Hc), <- !app_assoc. reflexivity.
  - unfold bind at 1. unfold bind at 1. unfold createElement_canvas.
    unfold ret at 1. unfold ret at 1.
    unfold bind, set_width, set_height, ctx_translate, log, modify, getContext.
    simpl. rewrite call_draw_ignoreCache. run.
    rewrite <- !app_assoc. reflexivity.
Qed.

(** The three alterations [cache] makes to its canvas. *)
Lemma cache_canvas_lookup (x y : number) (width height : Z)
    (m : gmap handle Canvas.t) (c : handle) (old : Canvas.t) :
  m !! c = Some old ->
  alter (fun cv =>
           Canvas.set_transform
             (Canvas.transform cv ++ [TranslateBy (- x)%float (- y)%float]) cv) c
    (alter (fun cv => Canvas.blank (Canvas.width cv) (dimension 150 height)) c
       (alter (fun cv => Canvas.blank (dimension 300 width) (Canvas.height cv)) c m))
  !! c = Some (cache_canvas x y width height).
Proof. intros Hold. rewrite !lookup_alter_eq, Hold. reflexivity. Qed.

Lemma cache_canvas_frame (x y : number) (width height : Z)
    (m : gmap handle Canvas.t) (c c' : handle) :
  c' <> c ->
  alter (fun cv =>
           Canvas.set_transform
             (Canvas.transform cv ++ [TranslateBy (- x)%float (- y)%float]) cv) c
    (alter (fun cv => Canvas.blank (Canvas.width cv) (dimension 150 height)) c
       (alter (fun cv => Canvas.blank (dimension 300 width) (Canvas.height cv)) c m))
  !! c' = m !! c'.
Proof. intros Hne. rewrite !lookup_alter_ne by congruence. reflexivity. Qed.

Lemma dimension_in_range (default v : Z) :
  0 <= v <= 2147483647 -> dimension default v = v.
Proof.
  intros Hv. unfold dimension. cbv zeta.
  rewrite Z.mod_small by lia.
  rewrite (proj2 (Z.leb_le v 2147483647)) by lia.
  reflexivity.
Qed.

(** What [cache] has done when it calls [draw], in full. *)
Lemma cache_prepare_runs (N : DisplayObject.t) (x y : number) (width height : Z)
    (w : World) :
  let c := match DisplayObject.cacheCanvas N with
           | Some c => c
           | None => fresh (dom (canvases w))
           end in
  let document := match DisplayObject.cacheCanvas N with
                  | Some _ => canvases w
                  | None => <[c := Canvas.blank 300 150]> (canvases w)
                  end in
  let created := match DisplayObject.cacheCanvas N with
                 | Some _ => []
                 | None => [EvCreateElement c]
                 end in
  DisplayObject.cache_prepare N x y width height w =
  (Normal (DisplayObject.set_cacheCanvas (Some c) N, c),
   {| canvases :=
        alter (fun cv =>
                 Canvas.set_transform
                   (Canvas.transform cv ++ [TranslateBy (- x)%float (- y)%float]) cv) c
          (alter (fun cv => Canvas.blank (Canvas.width cv) (dimension 150 height)) c
             (alter (fun cv => Canvas.blank (dimension 300 width) (Canvas.height cv)) c
                document));
      uid_nextID := uid_nextID w;
      trace := trace w ++ created ++
               [EvSetWidth c width; EvSetHeight c height;
                EvCtx c (translate (- x)%float (- y)%float)] |}).
Proof.
  cbv zeta. unfold DisplayObject.cache_prepare.
  destruct (DisplayObject.cacheCanvas N) as [c|] eqn:Hc.
  - unfold bind at 1. unfold ret at 1.
    unfold bind, set_width, set_height, ctx_translate, log, modify, getContext.
    simpl. run.
    rewrite (set_cacheCanvas_same N c Hc), <- !app_assoc. reflexivity.
  - unfold bind at 1. unfold bind at 1. unfold createElement_canvas.
    unfold ret at 1. unfold ret at 1.
    unfold bind, set_width, set_height, ctx_translate, log, modify, getContext.
    simpl. run.
    rewrite <- !app_assoc. reflexivity.
Qed.

(** What [ctx_drawImage] does to the world, accepted or not. *)
Lemma ctx_drawImage_frame (ctx image : handle) (dx dy : number) (w : World) :
  let w' := snd (ctx_drawImage ctx image dx dy w) in
  uid_nextID w' = uid_nextID w
  /\ trace w' = trace w ++ [EvCtx ctx (drawImage image dx dy)]
  /\ (forall c, c <> ctx -> canvases w' !! c = canvases w !! c).
Proof.
  cbv zeta. unfold ctx_drawImage. run.
  destruct (canvases w !! image) as [source|]; cbn [fst snd].
  - destruct (empty source); cbn [snd uid_nextID trace canvases].
    + auto.
    + repeat split. intros c Hne. rewrite lookup_alter_ne by congruence. reflexivity.
  - cbn [snd uid_nextID trace canvases]. auto.
Qed.

(** X3.  [draw] writes to the context it is given and to nothing else:
    whether it returns true, false or ends in an exception, the UID
    counter stands where it stood, every other canvas of the document is
    as it was (the cache canvas too, unless it is the destination), and
    the calls it made are calls on [ctx]. *)
Theorem draw_frame (N : DisplayObject.t) (ctx : handle) (ignoreCache : bool) (w : World) :
  let w' := snd (DisplayObject.draw N ctx ignoreCache w) in
  uid_nextID w' = uid_nextID w
  /\ (forall c, c <> ctx -> canvases w' !! c = canvases w !! c)
  /\ (exists events, trace w' = trace w ++ events /\ Forall (on_context ctx) events).
Proof.
  cbv zeta. unfold DisplayObject.draw.
  destruct (DisplayObject.cacheCanvas N) as [cc|];
    [destruct ignoreCache|];
    try (cbn; repeat split; exists []; rewrite app_nil_r; split; [reflexivity | constructor]).
  unfold ctx_translate. run.
  match goal with
  | |- context [ctx_drawImage ctx cc ?dx ?dy ?w1] =>
      pose proof (ctx_drawImage_frame ctx cc dx dy w1) as (Huid & Htrace & Hframe);
      destruct (ctx_drawImage ctx cc dx dy w1) as [[[]|e] w2]
  end; cbn [snd uid_nextID trace canvases] in *.
  - split; [exact Huid|]. split.
    + intros c Hne. rewrite lookup_alter_ne by congruence.
      rewrite (Hframe c Hne). rewrite lookup_alter_ne by congruence. reflexivity.
    + eexists. split.
      * rewrite Htrace, <- !app_assoc. reflexivity.
      * repeat constructor; eexists; reflexivity.
  - split; [exact Huid|]. split.
    + intros c Hne. rewrite (Hframe c Hne).
      rewrite lookup_alter_ne by congruence. reflexivity.
    + eexists. split.
      * rewrite Htrace, <- !app_assoc. reflexivity.
      * repeat constructor; eexists; reflexivity.
Qed.



(** C5, amended.  [cache(x, y, width, height)] gives the node a cache
    canvas, a new element if it had none and the one it had otherwise, and
    assigns it [width] and [height]: the platform takes each modulo 2^32
    and puts its default, 300 or 150, for a result above 2147483647, so the
    canvas is exactly [width] by [height] when both lie in 0..2147483647.
    The resizing blanks the bitmap and resets the context, which is then
    translated by [(-x, -y)]: that is the canvas when [draw] with
    [ignoreCache] true is called on the node, once, against that context.
    [cache] then returns, the stored offset being [(x, y)]; for a node made
    by [DisplayObject], whose [draw] paints nothing, the canvas is as it
    was at the call.  The canvas a node holds is a canvas of the
    document. *)
Theorem cache_contract (N : DisplayObject.t) (x y : number) (width height : Z) (w : World) :
  (forall c, DisplayObject.cacheCanvas N = Some c -> is_Some (canvases w !! c)) ->
  exists c cv w1 N' w' events,
    DisplayObject.cache_prepare N x y width height w =
      (Normal (DisplayObject.set_cacheCanvas (Some c) N, c), w1)
    /\ match DisplayObject.cacheCanvas N with
       | Some c0 => c = c0
       | None => canvases w !! c = None
       end
    /\ canvases w1 !! c = Some cv
    /\ Canvas.width cv = dimension 300 width
    /\ Canvas.height cv = dimension 150 height
    /\ (0 <= width <= 2147483647 -> Canvas.width cv = width)
    /\ (0 <= height <= 2147483647 -> Canvas.height cv = height)
    /\ Canvas.transform cv = [TranslateBy (- x)%float (- y)%float]
    /\ (forall px py, Canvas.pixels cv px py = transparent)
    /\ DisplayObject.cache N x y width height w =
         (let* _ := DisplayObject.call_draw
                      (DisplayObject.set_cacheCanvas (Some c) N) c true in
          ret (DisplayObject.set__cacheOffsetY y
                 (DisplayObject.set__cacheOffsetX x
                    (DisplayObject.set_cacheCanvas (Some c) N)))) w1
    /\ DisplayObject.cache N x y width height w = (Normal N', w')
    /\ trace w' = trace w1 ++ [EvCall (DisplayObject.id N) (m_draw c true)]
    /\ trace w' = trace w ++ events
    /\ events =
         match DisplayObject.cacheCanvas N with
         | Some _ => []
         | None => [EvCreateElement c]
         end ++
         [EvSetWidth c width; EvSetHeight c height;
          EvCtx c (translate (- x)%float (- y)%float);
          EvCall (DisplayObject.id N) (m_draw c true)]
    /\ draw_calls events = [(DisplayObject.id N, c, true)]
    /\ DisplayObject.cacheCanvas N' = Some c
    /\ DisplayObject._cacheOffsetX N' = x
    /\ DisplayObject._cacheOffsetY N' = y
    /\ (DisplayObject.cls N = DisplayObject.DisplayObjectClass ->
        canvases w' !! c = Some cv).
Proof.
  intros Hdoc.
  pose proof (cache_prepare_runs N x y width height w) as Hprep.
  pose proof (cache_runs N x y width height w) as Hrun.
  cbv zeta in Hprep, Hrun.
  set (c := match DisplayObject.cacheCanvas N with
            | Some c => c
            | None => fresh (dom (canvases w))
            end) in *.
  set (document := match DisplayObject.cacheCanvas N with
                   | Some _ => canvases w
                   | None => <[c := Canvas.blank 300 150]> (canvases w)
                   end) in *.
  assert (Hnew : match DisplayObject.cacheCanvas N with
                 | Some c0 => c = c0
                 | None => canvases w !! c = None
                 end).
  { unfold c. destruct (DisplayObject.cacheCanvas N); [reflexivity|].
    apply not_elem_of_dom. apply is_fresh. }
  assert (Hold : exists old, document !! c = Some old).
  { unfold document, c.
    destruct (DisplayObject.cacheCanvas N) as [c0|] eqn:Hc.
    - destruct (Hdoc c0 eq_refl) as [old Hold]. exists old. exact Hold.
    - exists (Canvas.blank 300 150). apply lookup_insert_eq. }
  destruct Hold as [old Hold].
  pose proof (cache_canvas_lookup x y width height document c old Hold) as Hcv.
  exists c, (cache_canvas x y width height).
  eexists. eexists. eexists. eexists.
  split; [exact Hprep|]. split; [exact Hnew|].
  cbn [canvases trace].
  split; [exact Hcv|].
  split; [reflexivity|]. split; [reflexivity|].
  split; [intros Hwidth; apply (dimension_in_range 300 width Hwidth)|].
  split; [intros Hheight; apply (dimension_in_range 150 height Hheight)|].
  split; [reflexivity|]. split; [reflexivity|].
  split.
  { rewrite Hrun. unfold bind. rewrite call_draw_ignoreCache. run.
    rewrite <- !app_assoc. reflexivity. }
  split; [exact Hrun|]. cbn [canvases trace].
  split; [rewrite <- !app_assoc; reflexivity|].
  split; [reflexivity|]. split; [reflexivity|].
  split; [destruct (DisplayObject.cacheCanvas N); reflexivity|].
  split; [reflexivity|]. split; [reflexivity|]. split; [reflexivity|].
  intros _. exact Hcv.
Qed.

(** X5.  [cache] on a node that is cached already reuses its canvas: no
    element is created and the node keeps the same canvas.  When [draw] is
    called, the bitmap of that canvas has been cleared and its context is
    translated by [(-x, -y)] alone, whatever they were before; the old
    cache is not drawn back into it (there is no [drawImage]); every other
    canvas is as it was.  For a node made by [DisplayObject], whose [draw]
    paints nothing, the canvas is still blank when [cache] returns. *)
Theorem cache_again (N : DisplayObject.t) (x y : number) (width height : Z)
    (w : World) (c : handle) (old : Canvas.t) :
  DisplayObject.cacheCanvas N = Some c ->
  canvases w !! c = Some old ->
  exists w1 N' w',
    DisplayObject.cache_prepare N x y width height w = (Normal (N, c), w1)
    /\ canvases w1 !! c = Some (cache_canvas x y width height)
    /\ (forall px py, Canvas.pixels (cache_canvas x y width height) px py = transparent)
    /\ trace w1 =
         trace w ++
         [EvSetWidth c width; EvSetHeight c height;
          EvCtx c (translate (- x)%float (- y)%float)]
    /\ DisplayObject.cache N x y width height w = (Normal N', w')
    /\ DisplayObject.cacheCanvas N' = Some c
    /\ trace w' = trace w1 ++ [EvCall (DisplayObject.id N) (m_draw c true)]
    /\ (forall c', c' <> c -> canvases w' !! c' = canvases w !! c')
    /\ (DisplayObject.cls N = DisplayObject.DisplayObjectClass ->
        canvases w' !! c = Some (cache_canvas x y width height)).
Proof.
  intros Hc Hold.
  pose proof (cache_prepare_runs N x y width height w) as Hprep.
  pose proof (cache_runs N x y width height w) as Hrun.
  cbv zeta in Hprep, Hrun. rewrite Hc in Hprep, Hrun.
  rewrite (set_cacheCanvas_same N c Hc) in Hprep.
  pose proof (cache_canvas_lookup x y width height (canvases w) c old Hold) as Hcv.
  eexists. eexists. eexists. split; [exact Hprep|]. cbn [canvases trace].
  split; [exact Hcv|]. split; [reflexivity|]. split; [reflexivity|].
  split; [exact Hrun|]. cbn [canvases trace].
  split; [reflexivity|].
  split; [rewrite <- !app_assoc; reflexivity|].
  split; [intros c' Hne; apply cache_canvas_frame; exact Hne|].
  intros _. exact Hcv.
Qed.

(** X6.  [uncache] gives the cache canvas up: [draw] is not handled any
    more and changes nothing, and the next [cache] builds a new canvas
    element and leaves the one given up as it was.  The offsets [draw]
    reads are not reset: [uncache] writes [cacheOffsetX] and
    [cacheOffsetY], which are other properties. *)
Theorem uncache_then_cache (N : DisplayObject.t) (x y : number) (width height : Z)
    (ctx : handle) (ignoreCache : bool) (w : World) (c : handle) (old : Canvas.t) :
  DisplayObject.cacheCanvas N = Some c ->
  canvases w !! c = Some old ->
  let U := DisplayObject.uncache N in
  DisplayObject.draw U ctx ignoreCache w = (Normal false, w)
  /\ DisplayObject._cacheOffsetX U = DisplayObject._cacheOffsetX N
  /\ DisplayObject._cacheOffsetY U = DisplayObject._cacheOffsetY N
  /\ DisplayObject.cacheOffsetX U = Some 0%float
  /\ DisplayObject.cacheOffsetY U = Some 0%float
  /\ exists c' N' w',
       DisplayObject.cache U x y width height w = (Normal N', w')
       /\ DisplayObject.cacheCanvas N' = Some c'
       /\ c' <> c
       /\ In (EvCreateElement c') (trace w')
       /\ canvases w' !! c = Some old.
Proof.
  intros Hc Hold U. repeat split.
  pose proof (cache_runs U x y width height w) as Hrun.
  cbv zeta in Hrun. cbn [U DisplayObject.uncache DisplayObject.cacheCanvas
                          DisplayObject.set_cacheCanvas DisplayObject.set_cacheOffsetX
                          DisplayObject.set_cacheOffsetY] in Hrun.
  assert (Hfresh : fresh (dom (canvases w)) <> c).
  { intros Heq. apply (is_fresh (dom (canvases w))). rewrite Heq.
    apply elem_of_dom. exists old. exact Hold. }
  eexists. eexists. eexists. split; [exact Hrun|]. cbn [canvases trace].
  split; [reflexivity|]. split; [exact Hfresh|]. split.
  - apply in_or_app. right. left. reflexivity.
  - rewrite cache_canvas_frame by congruence.
    rewrite lookup_insert_ne by congruence. exact Hold.
Qed.

(** X7.  A clone is a loose, uncached copy: it is visible exactly when
    the original is, [draw] on it is not handled even if the original is
    cached, it has no stage even if the original is on one, and making it
    touches no canvas and logs no call. *)
Theorem clone_is_detached (N : DisplayObject.t) (ctx : handle) (ignoreCache : bool)
    (w : World) :
  exists o w',
    DisplayObject.clone N w = (Normal o, w')
    /\ DisplayObject.isVisible o = DisplayObject.isVisible N
    /\ DisplayObject.draw o ctx ignoreCache w' = (Normal false, w')
    /\ DisplayObject.getStage o = None
    /\ chain o = [o]
    /\ canvases w' = canvases w
    /\ trace w' = trace w.
Proof.
  unfold DisplayObject.clone, DisplayObject.new, DisplayObject.initialize, UID.get.
  run. eexists. eexists. split; [reflexivity|].
  split; [reflexivity|]. split; [reflexivity|]. split; [reflexivity|].
  split; [|split; reflexivity].
  rewrite chain_unfold.
  match goal with
  | |- ?o :: match ?p with Some _ => _ | None => _ end = _ =>
      change p with (@None DisplayObject.t)
  end.
  reflexivity.
Qed.
(** X16.  [cache] writes to the node's cache canvas and to nothing else:
    every canvas the document held before, other than the one the node
    came with, is as it was, and the UID counter stands where it stood.
    Of the node, only [cacheCanvas] and the two offsets are assigned. *)
Theorem cache_frame (N : DisplayObject.t) (x y : number) (width height : Z) (w : World) :
  exists c N' w',
    DisplayObject.cache N x y width height w = (Normal N', w')
    /\ N' = DisplayObject.set__cacheOffsetY y
              (DisplayObject.set__cacheOffsetX x
                 (DisplayObject.set_cacheCanvas (Some c) N))
    /\ uid_nextID w' = uid_nextID w
    /\ (forall c' other,
          canvases w !! c' = Some other ->
          DisplayObject.cacheCanvas N <> Some c' ->
          canvases w' !! c' = Some other).
Proof.
  pose proof (cache_runs N x y width height w) as Hrun. cbv zeta in Hrun.
  eexists. eexists. eexists. split; [exact Hrun|].
  split; [reflexivity|]. split; [reflexivity|].
  intros c' other Hother Hne. cbn [canvases].
  destruct (DisplayObject.cacheCanvas N) as [c|].
  - rewrite cache_canvas_frame by congruence. exact Hother.
  - assert (Hfresh : c' <> fresh (dom (canvases w))).
    { intros Heq. apply (is_fresh (dom (canvases w))). rewrite <- Heq.
      apply elem_of_dom. exists other. exact Hother. }
    rewrite cache_canvas_frame by exact Hfresh.
    rewrite lookup_insert_ne by congruence. exact Hother.
Qed.
End CacheLifecycle.

(** ** What an export returns and what it leaves *)

Section Exporting.
Context {platform : Platform}.

(** The export over a background colour, step by step. *)
Lemma toImage_background_runs (S : Stage.t) (mimeType backgroundColor : option string)
    (w : World) (c : handle) (cv : Canvas.t) :
  Stage.canvas S = Some c ->
  canvases w !! c = Some cv ->
  truthy backgroundColor = true ->
  empty cv = false ->
  exists w' cleared,
    Stage.toImage S mimeType backgroundColor w =
      (Normal (encode (backed (string_value backgroundColor) cv) (export_type mimeType)), w')
    /\ canvases w' !! c =
         Some (Canvas.set_globalCompositeOperation
                 (Canvas.globalCompositeOperation cv)
                 (Canvas.set_pixels
                    (paste_rect cleared
                       (copy_rect cv 0 0 (Canvas.width cv) (Canvas.height cv)) 0 0)
                    cleared))
    /\ cleared =
         Canvas.set_pixels
           (paint_clearRect (backed (string_value backgroundColor) cv)
              0 0 (Canvas.width cv) (Canvas.height cv))
           (backed (string_value backgroundColor) cv)
    /\ (forall c', c' <> c -> canvases w' !! c' = canvases w !! c')
    /\ uid_nextID w' = uid_nextID w.
Proof.
  intros Hc Hcv Hbg Hsize. unfold Stage.toImage. rewrite Hc.
  destruct backgroundColor as [[|a color]|]; try discriminate Hbg.
  unfold empty in Hsize.
  unfold get_width, get_height, toDataURL, ctx_getImageData,
    ctx_get_globalCompositeOperation, ctx_set_globalCompositeOperation,
    ctx_set_fillStyle, ctx_fillRect, ctx_clearRect, ctx_putImageData.
  run. rewrite Hcv. cbn [fst snd]. rewrite Hcv. cbn [fst snd truthy].
  rewrite Hsize. cbn [canvases]. rewrite Hcv. cbn [fst snd canvases].
  rewrite Hcv. cbn [fst snd canvases].
  rewrite !lookup_alter_eq, Hcv. cbn [fmap option_fmap option_map].
  eexists. eexists.
  split; [reflexivity|]. cbn [canvases uid_nextID].
  split; [rewrite !lookup_alter_eq, Hcv; reflexivity|].
  split; [reflexivity|]. split; [|reflexivity].
  intros c' Hne. rewrite !lookup_alter_ne by congruence. reflexivity.
Qed.

(** The export without a background colour. *)
Lemma toImage_plain_runs (S : Stage.t) (mimeType backgroundColor : option string)
    (w : World) (c : handle) (cv : Canvas.t) :
  Stage.canvas S = Some c ->
  canvases w !! c = Some cv ->
  truthy backgroundColor = false ->
  Stage.toImage S mimeType backgroundColor w =
  (Normal (encode cv (export_type mimeType)),
   set_trace (trace w ++ [EvToDataURL c (export_type mimeType)]) w).
Proof.
  intros Hc Hcv Hbg. unfold Stage.toImage. rewrite Hc.
  unfold get_width, get_height, toDataURL.
  destruct backgroundColor as [[|a color]|]; try discriminate Hbg;
    run; rewrite Hcv; cbn [fst snd]; rewrite Hcv; cbn [fst snd truthy canvases];
    rewrite Hcv; reflexivity.
Qed.

(** X8.  [toImage] returns the encoding of the canvas, in the type asked
    for or in [image/png] when none (or the empty string) is given.
    Without a background colour it is the canvas as it stands; with one,
    it is the canvas with the whole of it filled in that colour under the
    mode [destination-over], so the colour shows where the canvas was
    transparent. *)
Theorem toImage_returns (S : Stage.t) (mimeType backgroundColor : option string)
    (w : World) (c : handle) (cv : Canvas.t) :
  Stage.canvas S = Some c ->
  canvases w !! c = Some cv ->
  (truthy backgroundColor = false ->
   fst (Stage.toImage S mimeType backgroundColor w) =
   Normal (encode cv (export_type mimeType)))
  /\ (truthy backgroundColor = true -> empty cv = false ->
      fst (Stage.toImage S mimeType backgroundColor w) =
      Normal (encode (backed (string_value backgroundColor) cv) (export_type mimeType)))
  /\ export_type None = "image/png"%string
  /\ export_type (Some ""%string) = "image/png"%string.
Proof.
  intros Hc Hcv. split; [|split; [|split; reflexivity]].
  - intros Hbg. rewrite (toImage_plain_runs S mimeType backgroundColor w c cv Hc Hcv Hbg).
    reflexivity.
  - intros Hbg Hsize.
    destruct (toImage_background_runs S mimeType backgroundColor w c cv Hc Hcv Hbg Hsize)
      as (w' & cleared & Hrun & _).
    rewrite Hrun. reflexivity.
Qed.

(** X9.  An export over a background colour restores the bitmap and the
    compositing mode and nothing else of the context: [fillStyle] is left
    at the background colour.  The transform, the size, the other
    canvases of the document and the UID counter are as they were.  An
    export without a background colour changes no canvas at all. *)
Theorem toImage_leaves (S : Stage.t) (mimeType backgroundColor : option string)
    (w : World) (c : handle) (cv : Canvas.t) :
  Stage.canvas S = Some c ->
  canvases w !! c = Some cv ->
  (truthy backgroundColor = false ->
   canvases (snd (Stage.toImage S mimeType backgroundColor w)) = canvases w)
  /\ (truthy backgroundColor = true -> empty cv = false ->
      let w' := snd (Stage.toImage S mimeType backgroundColor w) in
      (exists cv',
         canvases w' !! c = Some cv'
         /\ Canvas.fillStyle cv' = string_value backgroundColor
         /\ Canvas.transform cv' = Canvas.transform cv
         /\ Canvas.width cv' = Canvas.width cv
         /\ Canvas.height cv' = Canvas.height cv)
      /\ (forall c', c' <> c -> canvases w' !! c' = canvases w !! c')
      /\ uid_nextID w' = uid_nextID w).
Proof.
  intros Hc Hcv. split.
  - intros Hbg. rewrite (toImage_plain_runs S mimeType backgroundColor w c cv Hc Hcv Hbg).
    reflexivity.
  - intros Hbg Hsize.
    destruct (toImage_background_runs S mimeType backgroundColor w c cv Hc Hcv Hbg Hsize)
      as (w' & cleared & Hrun & Hlookup & Hcleared & Hframe & Huid).
    rewrite Hrun. cbn [snd]. split; [|split; assumption].
    eexists. split; [exact Hlookup|]. subst cleared. repeat split.
Qed.

(** X10.  The two ways an export fails leave every canvas as it was: on a
    stage without a canvas it ends in a [TypeError] before anything is
    done; over a background colour on a canvas without pixels it ends in
    the [IndexSizeError] of [getImageData], the only call made. *)
Theorem toImage_fails_clean (S : Stage.t) (mimeType backgroundColor : option string)
    (w : World) :
  (Stage.canvas S = None ->
   Stage.toImage S mimeType backgroundColor w = (Throw TypeError, w))
  /\ (forall c cv,
        Stage.canvas S = Some c ->
        canvases w !! c = Some cv ->
        truthy backgroundColor = true ->
        empty cv = true ->
        Stage.toImage S mimeType backgroundColor w =
        (Throw IndexSizeError,
         set_trace
           (trace w ++
            [EvCtx c (getImageData 0 0 (Canvas.width cv) (Canvas.height cv))]) w)).
Proof.
  split.
  - intros Hc. unfold Stage.toImage. rewrite Hc. reflexivity.
  - intros c cv Hc Hcv Hbg Hsize. unfold Stage.toImage. rewrite Hc.
    destruct backgroundColor as [[|a color]|]; try discriminate Hbg.
    unfold empty in Hsize. unfold get_width, get_height, ctx_getImageData.
    run. rewrite Hcv. cbn [fst snd]. rewrite Hcv. cbn [fst snd truthy].
    rewrite Hsize. reflexivity.
Qed.
End Exporting.

(** ** The pointer position *)

(** X11.  A move over a stage without a canvas sets both coordinates to
    null and invokes nothing, whatever callbacks are set.  Over a stage
    with a canvas it stores the page coordinates less the canvas offset
    and invokes, on one event value that carries them, the stage's
    [onMouseMove] and then the active object's, each if set; nothing else
    of the stage and nothing of the document changes. *)
Theorem mouse_move (offset : handle -> number * number)
    (S : Stage.t) (e : DomEvent.t) (w : World) :
  (Stage.canvas S = None ->
   Stage._handleMouseMove offset S e w =
   (Normal (Stage.set_mouseX None (Stage.set_mouseY None S)), w))
  /\ (forall c,
        Stage.canvas S = Some c ->
        let mx := PrimFloat.sub (DomEvent.pageX e) (fst (offset c)) in
        let my := PrimFloat.sub (DomEvent.pageY e) (snd (offset c)) in
        let evt := MouseEvent.new "onMouseMove" (Some mx) (Some my) in
        Stage._handleMouseMove offset S e w =
        (Normal (Stage.set_mouseY (Some my) (Stage.set_mouseX (Some mx) S)),
         set_trace
           (trace w ++ root_callbacks (Stage.onMouseMove S) evt
                    ++ active_callbacks (Stage._activeMouseEvent S)
                         ActiveMouseEvent.onMouseMove evt) w)).
Proof.
  split.
  - intros Hc. unfold Stage._handleMouseMove. rewrite Hc. reflexivity.
  - intros c Hc mx my evt. unfold Stage._handleMouseMove. rewrite Hc.
    unfold Stage.invoke, root_callbacks, active_callbacks.
    cbn [Stage.onMouseMove Stage._activeMouseEvent Stage.set_mouseX Stage.set_mouseY
         Stage.mouseX Stage.mouseY].
    destruct (Stage.onMouseMove S), (Stage._activeMouseEvent S) as [a|];
      try destruct (ActiveMouseEvent.onMouseMove a); run;
      rewrite ?app_nil_r, ?app_nil_l, <- ?app_assoc, ?world_eta; reflexivity.
Qed.

(** X12.  A press and a release report where the pointer last moved, not
    where they happen: after a move over a stage with a canvas, the event
    value a press or a release hands to the callbacks carries the
    coordinates of that move, whatever page coordinates their own browser
    event has; after a move over a stage without a canvas it carries
    nulls. *)
Theorem press_and_release_position (offset : handle -> number * number)
    (S : Stage.t) (moved pressed : DomEvent.t) (w : World) :
  let S' := match fst (Stage._handleMouseMove offset S moved w) with
            | Normal S' => S'
            | Throw _ => S
            end in
  let w' := snd (Stage._handleMouseMove offset S moved w) in
  let position :=
    match Stage.canvas S with
    | Some c =>
        (Some (PrimFloat.sub (DomEvent.pageX moved) (fst (offset c))),
         Some (PrimFloat.sub (DomEvent.pageY moved) (snd (offset c))))
    | None => (None, None)
    end in
  Stage._handleMouseDown S' pressed w' =
    (Normal tt,
     set_trace
       (trace w' ++
        root_callbacks (Stage.onMouseDown S)
          (MouseEvent.new "onMouseDown" (fst position) (snd position))) w')
  /\ Stage._handleMouseUp S' pressed w' =
       (Normal tt,
        set_trace
          (trace w' ++
           root_callbacks (Stage.onMouseUp S)
             (MouseEvent.new "onMouseUp" (fst position) (snd position)) ++
           active_callbacks (Stage._activeMouseEvent S) ActiveMouseEvent.onMouseUp
             (MouseEvent.new "onMouseUp" (fst position) (snd position))) w').
Proof.
  cbv zeta. unfold Stage._handleMouseMove, Stage.invoke.
  destruct (Stage.canvas S) as [c|];
    cbn [Stage.onMouseMove Stage._activeMouseEvent
         Stage.set_mouseX Stage.set_mouseY Stage.mouseX Stage.mouseY];
    destruct (Stage.onMouseMove S), (Stage._activeMouseEvent S) as [a|] eqn:Ha;
    try destruct (ActiveMouseEvent.onMouseMove a);
    run;
    (split;
     [ unfold Stage._handleMouseDown, root_callbacks;
       cbn [Stage.onMouseDown Stage.set_mouseX Stage.set_mouseY Stage.mouseX Stage.mouseY];
       destruct (Stage.onMouseDown S); run;
       rewrite ?app_nil_r, <- ?app_assoc, ?world_eta; reflexivity
     | unfold Stage._handleMouseUp, Stage.invoke, root_callbacks, active_callbacks;
       cbn [Stage.onMouseUp Stage._activeMouseEvent
            Stage.set_mouseX Stage.set_mouseY Stage.mouseX Stage.mouseY];
       rewrite ?Ha;
       destruct (Stage.onMouseUp S);
       try destruct (ActiveMouseEvent.onMouseUp a); run;
       rewrite ?app_nil_r, ?app_nil_l, <- ?app_assoc, ?world_eta; reflexivity ]).
Qed.

(** ** Building a stage *)

Section Building.
Variable browser : Stage.Browser.
Variable Container_initialize : Stage.instance -> M Stage.instance.
Variable cloneProps : Stage.t -> Stage.instance -> M Stage.instance.

(** [initialize] once [Container]'s part has returned. *)
Lemma initialize_runs (this this1 : Stage.instance) (canvas : option handle)
    (listeners : list Stage.Listener) (w w1 : World) :
  Container_initialize this w = (Normal this1, w1) ->
  Stage.initialize browser Container_initialize this canvas listeners w =
  match canvas with
  | None => (Throw TypeError, listeners ++ mouseup_listener browser, w1)
  | Some c =>
      (Normal (Stage.mkInstance (Stage.set_canvas (Some c) (Stage.stage this1))
                 (Some true)),
       listeners ++ mouseup_listener browser ++
       [Stage.mkListener (Stage.the_canvas c) "mousemove" Stage.calls_handleMouseMove None;
        Stage.mkListener (Stage.the_canvas c) "mousedown" Stage.calls_handleMouseDown None],
       w1)
  end.
Proof.
  intros Hinit. unfold Stage.initialize, mouseup_listener. rewrite Hinit.
  destruct canvas as [c|];
    destruct (Stage.window_addEventListener browser);
    try destruct (Stage.document_addEventListener browser);
    cbn [Stage.stage Stage.mouseChildren];
    rewrite ?app_nil_r, <- ?app_assoc; reflexivity.
Qed.

(** X13.  [initialize] needs a canvas.  Given one it binds the stage to
    it, sets [mouseChildren] and registers, in this order, the release
    listener (on the window, else on the document) and the move and press
    listeners on the canvas.  Given null it ends in a [TypeError] at the
    first listener it wants on the canvas, when the release listener is
    registered already; and whatever makes [Container]'s [initialize]
    fail makes it fail, before any listener is registered. *)
Theorem initialize_contract (this : Stage.instance) (canvas : option handle)
    (listeners : list Stage.Listener) (w : World) :
  (forall this1 w1,
     Container_initialize this w = (Normal this1, w1) ->
     Stage.initialize browser Container_initialize this canvas listeners w =
     match canvas with
     | None => (Throw TypeError, listeners ++ mouseup_listener browser, w1)
     | Some c =>
         (Normal (Stage.mkInstance (Stage.set_canvas (Some c) (Stage.stage this1))
                    (Some true)),
          listeners ++ mouseup_listener browser ++
          [Stage.mkListener (Stage.the_canvas c) "mousemove" Stage.calls_handleMouseMove None;
           Stage.mkListener (Stage.the_canvas c) "mousedown" Stage.calls_handleMouseDown None],
          w1)
     end)
  /\ (forall e w1,
        Container_initialize this w = (Throw e, w1) ->
        Stage.initialize browser Container_initialize this canvas listeners w =
        (Throw e, listeners, w1)).
Proof.
  split.
  - intros this1 w1 Hinit. apply initialize_runs. exact Hinit.
  - intros e w1 Hinit. unfold Stage.initialize. rewrite Hinit. reflexivity.
Qed.

(** X14.  [clone] on a stage never returns: it builds its copy with
    [new Stage(null)], and [initialize] does not get past a null canvas.
    [cloneProps] is not reached, and when [Container]'s [initialize]
    returns, the failure is a [TypeError] that leaves one more release
    listener registered than there was. *)
Theorem clone_never_returns (container : DisplayObject.t) (S : Stage.t)
    (listeners : list Stage.Listener) (w : World) :
  (exists e,
     fst (fst (Stage.clone browser Container_initialize cloneProps
                 container S listeners w)) = Throw e)
  /\ (forall this1 w1,
        Container_initialize (Stage.mkInstance (Stage.prototype container) None) w
          = (Normal this1, w1) ->
        Stage.clone browser Container_initialize cloneProps container S listeners w =
        (Throw TypeError, listeners ++ mouseup_listener browser, w1)).
Proof.
  unfold Stage.clone, Stage.new. split.
  - destruct (Container_initialize (Stage.mkInstance (Stage.prototype container) None) w)
      as [[this1 | e] w1] eqn:Hinit.
    + rewrite (initialize_runs _ this1 None listeners w w1 Hinit). eauto.
    + unfold Stage.initialize. rewrite Hinit. eauto.
  - intros this1 w1 Hinit.
    rewrite (initialize_runs _ this1 None listeners w w1 Hinit). reflexivity.
Qed.
End Building.

(** ** Printing *)

Lemma append_cancel_l (s a b : string) :
  (s ++ a)%string = (s ++ b)%string -> a = b.
Proof.
  induction s as [|ch s IH]; cbn; intros H; [exact H|].
  injection H as H. apply IH. exact H.
Qed.

Lemma length_append (a b : string) :
  String.length (a ++ b)%string = (String.length a + String.length b)%nat.
Proof.
  induction a as [|ch a IH]; [reflexivity|].
  change (S (String.length (a ++ b)%string) =
          S (String.length a + String.length b)%nat).
  f_equal. exact IH.
Qed.

Lemma append_cancel_r (t a b : string) :
  (a ++ t)%string = (b ++ t)%string -> a = b.
Proof.
  revert b. induction a as [|ch a IH]; intros [|ch' b] H.
  - reflexivity.
  - apply (f_equal String.length) in H.
    change (String.length t = S (String.length (b ++ t)%string)) in H.
    rewrite length_append in H. lia.
  - apply (f_equal String.length) in H.
    change (S (String.length (a ++ t)%string) = String.length t) in H.
    rewrite length_append in H. lia.
  - injection H as -> H. f_equal. apply IH. exact H.
Qed.

(** X15.  [toString] shows the name and nothing else of a display
    object: two of them print alike exactly when their names print
    alike, where a missing name prints as [null], the way a name that is
    the string [null] does.  A stage never prints like a plain display
    object. *)
Theorem toString_shows_name (a b : DisplayObject.t) (S : Stage.t) :
  (DisplayObject.toString a = DisplayObject.toString b <->
   DisplayObject.text_of_name (DisplayObject.name a) =
   DisplayObject.text_of_name (DisplayObject.name b))
  /\ (DisplayObject.name a = None ->
      DisplayObject.name b = Some "null"%string ->
      DisplayObject.toString a = DisplayObject.toString b)
  /\ Stage.toString S <> DisplayObject.toString a.
Proof.
  unfold DisplayObject.toString, Stage.toString. split; [|split].
  - split.
    + intros H. apply append_cancel_l in H. apply append_cancel_r in H. exact H.
    + intros ->. reflexivity.
  - intros -> ->. reflexivity.
  - cbn. intros H. discriminate H.
Qed.

(** ** The further properties on the examples *)


Lemma cache_again_witness :
  exists N' w',
    DisplayObject.cache (platform := example_platform)
      cached 5%float 6%float 40 30 example_world = (Normal N', w')
    /\ DisplayObject.cacheCanvas N' = Some 1%positive
    /\ canvases w' !! 1%positive = Some (cache_canvas 5%float 6%float 40 30).
Proof.
  destruct (cache_again (platform := example_platform)
              cached 5%float 6%float 40 30 example_world 1%positive example_canvas
              eq_refl eq_refl)
    as (w1 & N' & w' & _ & _ & _ & _ & Hrun & Hc & _ & _ & Hcv).
  exists N', w'. split; [exact Hrun|]. split; [exact Hc | exact (Hcv eq_refl)].
Defined.

Lemma cache_contract_witness :
  exists cv N' w',
    DisplayObject.cache (platform := example_platform)
      cached 5%float 6%float 40 30 example_world = (Normal N', w')
    /\ DisplayObject.cacheCanvas N' = Some 1%positive
    /\ canvases w' !! 1%positive = Some cv
    /\ Canvas.width cv = 40
    /\ Canvas.height cv = 30
    /\ DisplayObject._cacheOffsetX N' = 5%float
    /\ DisplayObject._cacheOffsetY N' = 6%float
    /\ draw_calls (trace w') = [(0, 1%positive, true)].
Proof.
  destruct (cache_contract (platform := example_platform)
              cached 5%float 6%float 40 30 example_world)
    as (c & cv & w1 & N' & w' & events & _ & Hsame & _ & _ & _ & Hw & Hh & _ & _
        & _ & Hrun & _ & Htrace & _ & Hdraw & Hc & Hx & Hy & Hcv).
  - intros c [= <-]. eexists. reflexivity.
  - simpl in Hsame. subst c.
    exists cv, N', w'.
    rewrite Htrace. simpl. rewrite Hdraw.
    split; [exact Hrun|]. split; [exact Hc|]. split; [exact (Hcv eq_refl)|].
    split; [apply Hw; lia|]. split; [apply Hh; lia|].
    split; [exact Hx|]. split; [exact Hy|]. reflexivity.
Defined.

(** C5 fails as stated: [cache] with the width -5 and the height
    2147483648 leaves the node a cache canvas of 300 by 150. *)
Lemma cache_size_replaced :
  exists N' w' cv,
    DisplayObject.cache (platform := example_platform)
      detached 0%float 0%float (-5) 2147483648 example_world = (Normal N', w')
    /\ DisplayObject.cacheCanvas N' = Some 2%positive
    /\ canvases w' !! 2%positive = Some cv
    /\ Canvas.width cv = 300
    /\ Canvas.height cv = 150
    /\ Canvas.width cv <> -5
    /\ Canvas.height cv <> 2147483648.
Proof.
  eexists. eexists. eexists. split; [reflexivity|].
  split; [reflexivity|]. split; [reflexivity|].
  split; [reflexivity|]. split; [reflexivity|]. split; discriminate.
Defined.

Lemma uncache_then_cache_witness :
  DisplayObject.draw (platform := example_platform)
    (DisplayObject.uncache cached) 1%positive false example_world
  = (Normal false, example_world)
  /\ DisplayObject._cacheOffsetX (DisplayObject.uncache cached) = 10%float.
Proof.
  destruct (uncache_then_cache (platform := example_platform)
              cached 5%float 6%float 40 30 1%positive false example_world
              1%positive example_canvas eq_refl eq_refl)
    as (Hdraw & Hx & _).
  split; [exact Hdraw | exact Hx].
Defined.

Lemma toImage_returns_witness :
  fst (Stage.toImage (platform := example_platform)
         example_stage None (Some "white"%string) example_world)
  = Normal "image/png;painted"%string.
Proof.
  apply (proj1 (proj2 (toImage_returns (platform := example_platform)
                         example_stage None (Some "white"%string) example_world
                         1%positive example_canvas eq_refl eq_refl))).
  - reflexivity.
  - reflexivity.
Defined.

Lemma toImage_leaves_witness :
  exists cv',
    canvases (snd (Stage.toImage (platform := example_platform)
                     example_stage None (Some "white"%string) example_world))
      !! 1%positive = Some cv'
    /\ Canvas.fillStyle cv' = "white"%string.
Proof.
  destruct (proj2 (toImage_leaves (platform := example_platform)
                     example_stage None (Some "white"%string) example_world
                     1%positive example_canvas eq_refl eq_refl)
              eq_refl eq_refl)
    as [(cv' & Hcv' & Hstyle & _) _].
  exists cv'. split; [exact Hcv' | exact Hstyle].
Defined.

Lemma toImage_fails_clean_witness :
  Stage.toImage (platform := example_platform)
    example_stage None (Some "white"%string) example_empty_world
  = (Throw IndexSizeError,
     set_trace [EvCtx 1%positive (getImageData 0 0 0 3)] example_empty_world).
Proof.
  apply (proj2 (toImage_fails_clean (platform := example_platform)
                  example_stage None (Some "white"%string) example_empty_world)
           1%positive (Canvas.blank 0 3) eq_refl eq_refl eq_refl eq_refl).
Defined.

Lemma mouse_move_witness :
  fst (Stage._handleMouseMove example_offset example_stage example_event example_world)
  = Normal (Stage.set_mouseY (Some 0%float)
              (Stage.set_mouseX (Some 2%float) example_stage)).
Proof.
  rewrite (proj2 (mouse_move example_offset example_stage example_event example_world)
             1%positive eq_refl).
  reflexivity.
Defined.

Lemma initialize_contract_witness :
  fst (fst (Stage.initialize example_browser example_Container_initialize
              (Stage.mkInstance (Stage.prototype detached) None) None [] example_world))
  = Throw TypeError.
Proof.
  rewrite (proj1 (initialize_contract example_browser example_Container_initialize
                    (Stage.mkInstance (Stage.prototype detached) None)
                    None [] example_world)
             _ _ eq_refl).
  reflexivity.
Defined.

Lemma clone_never_returns_witness :
  Stage.clone example_browser example_Container_initialize (fun _ o => ret o)
    detached example_stage [] example_world
  = (Throw TypeError,
     [Stage.mkListener Stage.the_window "mouseup" Stage.calls_handleMouseUp (Some false)],
     set_uid_nextID 2 example_world).
Proof.
  rewrite (proj2 (clone_never_returns example_browser example_Container_initialize
                    (fun _ o => ret o) detached example_stage [] example_world)
             _ _ eq_refl).
  reflexivity.
Defined.
